(** * segyio: the [SegyFile] front end (python/segyio/segy.py)

    A shallow embedding of the Python class [SegyFile] and of [TextHeader],
    with the properties that the specification states about them.

    Python integers are [Z], Python lists are [list], [None] is [option]'s
    [None], exceptions are the [Raise] branch of [result], and attribute
    mutation is explicit state passing.  The file handle [xfd] (the C
    extension), the view classes [Trace], [Header], [Line], [Gather], [Depth]
    and the geometry inference of [segyio.open] live in other modules of the
    repository; what is needed of them is modelled from the specification and
    marked as such. *)

From stdpp Require Import base list strings pretty.
From Stdlib Require Import ZArith Lia.
From Stdlib Require Import Ascii.
Local Open Scope Z_scope.

(** ** Exceptions and results *)

Inductive exn : Type :=
| ValueError (msg : string)
| RuntimeError (msg : string)
| IndexError (msg : string)
| OverflowError (msg : string)
| IOError (msg : string).

Inductive result (A : Type) : Type :=
| Ok (a : A)
| Raise (e : exn).
Arguments Ok {A} a.
Arguments Raise {A} e.

Definition rbind {A B : Type} (r : result A) (k : A -> result B) : result B :=
  match r with
  | Ok a => k a
  | Raise e => Raise e
  end.

Declare Scope py_scope.
Delimit Scope py_scope with py.
Notation "x <- r ;; k" := (rbind r (fun x => k))
  (at level 100, r at next level, right associativity) : py_scope.

(** The exception class, which is what callers dispatch on. *)
Inductive exn_kind : Type :=
| KValueError | KRuntimeError | KIndexError | KOverflowError | KIOError.

Definition kind_of (e : exn) : exn_kind :=
  match e with
  | ValueError _ => KValueError
  | RuntimeError _ => KRuntimeError
  | IndexError _ => KIndexError
  | OverflowError _ => KOverflowError
  | IOError _ => KIOError
  end.

Definition raises {A : Type} (r : result A) (k : exn_kind) : Prop :=
  match r with
  | Ok _ => False
  | Raise e => kind_of e = k
  end.

(** ** The file handle *)

(** A sample as stored, and a trace header: the header word under each
    field tag. *)
Abbreviation sample := Z (only parsing).
Abbreviation trace_header := (Z -> Z) (only parsing).

(** Modelled from the spec: the handle class [_segyio.segyiofd] (the C
    extension, which is not part of segy.py).  Section 6 of the specification
    gives its interface: [metrics], [read_text_header]/[write_text_header],
    [read_field] with batched variants for ranges and index lists,
    [write_trace].  The store is a sequence of text-header slots
    [0..ext_headers] and a sequence of [tracecount] records, each a header and
    a sample array. *)
Record segyiofd : Type := mk_segyiofd {
  fd_format : Z;
  fd_samplecount : Z;
  fd_text : list string;
  fd_records : list (trace_header * list sample);
}.

(** Modelled from the spec: the result of [metrics(handle)], with the keys
    format, tracecount, samplecount and ext_headers; the counts are those of
    the store. *)
Record Metrics : Type := mk_metrics {
  m_format : Z;
  m_tracecount : Z;
  m_samplecount : Z;
  m_ext_headers : Z;
}.

Definition metrics (fd : segyiofd) : Metrics :=
  {| m_format := fd_format fd;
     m_tracecount := Z.of_nat (length (fd_records fd));
     m_samplecount := fd_samplecount fd;
     m_ext_headers := Z.of_nat (length (fd_text fd)) - 1 |}.

Definition with_text (fd : segyiofd) (t : list string) : segyiofd :=
  {| fd_format := fd_format fd; fd_samplecount := fd_samplecount fd;
     fd_text := t; fd_records := fd_records fd |}.

Definition with_records (fd : segyiofd)
    (r : list (trace_header * list sample)) : segyiofd :=
  {| fd_format := fd_format fd; fd_samplecount := fd_samplecount fd;
     fd_text := fd_text fd; fd_records := r |}.

(** Modelled from the spec: [read_text_header(handle, slot)] and
    [write_text_header] of the handle.  A failure of the transport layer is an
    I/O error, which the front end passes on unchanged. *)
Definition gettext (fd : segyiofd) (index : Z) : result string :=
  if index <? 0 then Raise (IOError "text header read failed")
  else match fd_text fd !! Z.to_nat index with
       | Some s => Ok s
       | None => Raise (IOError "text header read failed")
       end.

Definition puttext (fd : segyiofd) (index : Z) (val : string) : result segyiofd :=
  if index <? 0 then Raise (IOError "text header write failed")
  else match fd_text fd !! Z.to_nat index with
       | Some _ => Ok (with_text fd (<[Z.to_nat index := val]> (fd_text fd)))
       | None => Raise (IOError "text header write failed")
       end.

(** Modelled from the spec: [read_field(handle, index, field_tag)] of the
    handle.  A trace index outside the store is the IndexOutOfRange failure of
    section 7. *)
Definition read_field (fd : segyiofd) (index : Z) (field : Z) : result Z :=
  if index <? 0 then Raise (IndexError "trace index out of range")
  else match fd_records fd !! Z.to_nat index with
       | Some r => Ok (r.1 field)
       | None => Raise (IndexError "trace index out of range")
       end.

(** Modelled from the spec: the batched variants of [read_field] for ranges
    ([field_forall]) and index lists ([field_foreach]).  They fill the
    caller's buffer, one value per index, in the order of the indices, and
    hand the buffer back. *)
Fixpoint field_fill (fd : segyiofd) (field : Z) (indices : list Z)
    (pos : nat) (buf : list Z) : result (list Z) :=
  match indices with
  | [] => Ok buf
  | i :: rest =>
      (v <- read_field fd i field ;;
       field_fill fd field rest (S pos) (<[pos := v]> buf))%py
  end.

(** Python's [len(range(start, stop, step))] and [range(start, stop, step)]
    for a non-zero [step]. *)
Definition range_len (start stop step : Z) : Z :=
  if 0 <? step then
    (if start <? stop then (stop - start - 1) / step + 1 else 0)
  else
    (if stop <? start then (start - stop - 1) / (- step) + 1 else 0).

Definition py_range (start stop step : Z) : list Z :=
  (fun k => start + k * step) <$> seqZ 0 (range_len start stop step).

(** Modelled from the spec: [field_forall(buf, start, stop, step, field)],
    the batched read over a range. *)
Definition field_forall (fd : segyiofd) (buf : list Z)
    (start stop step : Z) (field : Z) : result (list Z) :=
  field_fill fd field (py_range start stop step) 0 buf.

(** Modelled from the spec: [field_foreach(buf, indices, field)], the batched
    read over an index list. *)
Definition field_foreach (fd : segyiofd) (buf : list Z)
    (xs : list Z) (field : Z) : result (list Z) :=
  field_fill fd field xs 0 buf.

(** ** numpy and Python built-ins used by [SegyFile] *)

(** [np.dtype]: the four element types [__init__] can select. *)
Inductive np_dtype : Type := float32 | int32 | int16 | int8.

Definition itemsize (d : np_dtype) : Z :=
  match d with
  | float32 => 4
  | int32 => 4
  | int16 => 2
  | int8 => 1
  end.

(** [np.empty(n, dtype = np.intc)]: a fresh buffer of [n] cells.  numpy leaves
    the cells uninitialised; the handle overwrites every one of them. *)
Definition np_empty (n : nat) : list Z := replicate n 0.

(** [np.asarray(xs, dtype = np.intc)] on a Python list of integers: a value
    outside the range of a C [int] is refused. *)
Definition intc_min : Z := - 2 ^ 31.
Definition intc_max : Z := 2 ^ 31 - 1.

Fixpoint asarray_intc (xs : list Z) : result (list Z) :=
  match xs with
  | [] => Ok []
  | x :: rest =>
      if (intc_min <=? x) && (x <=? intc_max)
      then (r <- asarray_intc rest ;; Ok (x :: r))%py
      else Raise (OverflowError "Python integer out of bounds for intc")
  end.

(** [slice(start, stop, step).indices(len)], as CPython computes it. *)
Definition slice_indices (start stop step : option Z) (len : Z)
    : result (Z * Z * Z) :=
  let step' := default 1 step in
  if step' =? 0 then Raise (ValueError "slice step cannot be zero")
  else
    let lower := if step' <? 0 then -1 else 0 in
    let upper := if step' <? 0 then len - 1 else len in
    let clamp (d : Z) (o : option Z) :=
      match o with
      | None => d
      | Some s => if s <? 0 then Z.max (s + len) lower else Z.min s upper
      end in
    Ok (clamp (if step' <? 0 then upper else lower) start,
        clamp (if step' <? 0 then lower else upper) stop,
        step').

(** [c in s] for a character and a string. *)
Fixpoint contains_char (c : Ascii.ascii) (s : string) : bool :=
  match s with
  | String.EmptyString => false
  | String.String c' s' => if Ascii.eqb c c' then true else contains_char c s'
  end.

(** ** The objects of segy.py *)

(** Modelled from the spec: the enumeration [TraceSortingFormat]
    (segyio/tracesortingformat.py), whose members the specification lists as
    INLINE, CROSSLINE and UNKNOWN. *)
Inductive TraceSortingFormat : Type :=
| UNKNOWN_SORTING | CROSSLINE_SORTING | INLINE_SORTING.

Global Instance TraceSortingFormat_eq_dec : EqDecision TraceSortingFormat.
Proof. solve_decision. Defined.

(** [x == k] where [x] is a sorting or [None]. *)
Definition sorting_eq (x : option TraceSortingFormat)
    (k : TraceSortingFormat) : bool :=
  match x with
  | Some s => bool_decide (s = k)
  | None => false
  end.

(** Every Python object has an identity; a constructor call yields an object
    whose identity is new.  The view classes are defined outside segy.py, so
    an instance is recorded as its identity and the arguments that segy.py
    passes to the constructor.  The back-reference [self] that [Header],
    [Line] and [Depth] receive is the file they are stored in. *)
Definition oid := nat.

Record Trace : Type := mk_Trace {
  trace_oid : oid;
  trace_dtype : np_dtype;
  trace_tracecount : Z;
  trace_samplecount : Z;
  trace_readonly : bool;
}.

Record Header : Type := mk_Header { header_oid : oid }.

Record Line : Type := mk_Line {
  line_oid : oid;
  line_labels : option (list Z);
  line_length : option Z;
  line_stride : option Z;
  line_offsets : option (list Z);
  line_direction : string;
}.

Record Gather : Type := mk_Gather {
  gather_oid : oid;
  gather_trace : Trace;
  gather_iline : Line;
  gather_xline : Line;
  gather_offsets : option (list Z);
}.

Record Depth : Type := mk_Depth { depth_oid : oid }.

Record SegyFile : Type := mk_SegyFile {
  _filename : string;
  _mode : string;
  _il : Z;
  _xl : Z;
  (* property value holders *)
  _ilines : option (list Z);
  _xlines : option (list Z);
  _offsets : option (list Z);
  _samples : option (list Z);
  _sorting : option TraceSortingFormat;
  (* private values *)
  _iline_length : option Z;
  _iline_stride : option Z;
  _xline_length : option Z;
  _xline_stride : option Z;
  xfd : segyiofd;
  _fmt : Z;
  _tracecount : Z;
  _ext_headers : Z;
  _dtype : np_dtype;
  _trace : Trace;
  _header : Header;
  _iline : option Line;
  _xline : option Line;
  _gather : option Gather;
  depth : option Depth;
}.

(** [TextHeader(outer)]: [outer] is the file the header view reads and
    writes; an operation on the view sees the state that file has when the
    operation runs. *)
Record TextHeader : Type := mk_TextHeader {
  text_oid : oid;
  outer : SegyFile;
}.

(** Attribute assignments [self.x = v]. *)
Definition set_xfd (f : SegyFile) (v : segyiofd) : SegyFile :=
  let 'mk_SegyFile a1 a2 a3 a4 a5 a6 a7 a8 a9 a10 a11 a12 a13 _ a15 a16 a17
                   a18 a19 a20 a21 a22 a23 a24 := f in
  mk_SegyFile a1 a2 a3 a4 a5 a6 a7 a8 a9 a10 a11 a12 a13 v a15 a16 a17
              a18 a19 a20 a21 a22 a23 a24.

Definition set__iline (f : SegyFile) (v : option Line) : SegyFile :=
  let 'mk_SegyFile a1 a2 a3 a4 a5 a6 a7 a8 a9 a10 a11 a12 a13 a14 a15 a16 a17
                   a18 a19 a20 _ a22 a23 a24 := f in
  mk_SegyFile a1 a2 a3 a4 a5 a6 a7 a8 a9 a10 a11 a12 a13 a14 a15 a16 a17
              a18 a19 a20 v a22 a23 a24.

Definition set__xline (f : SegyFile) (v : option Line) : SegyFile :=
  let 'mk_SegyFile a1 a2 a3 a4 a5 a6 a7 a8 a9 a10 a11 a12 a13 a14 a15 a16 a17
                   a18 a19 a20 a21 _ a23 a24 := f in
  mk_SegyFile a1 a2 a3 a4 a5 a6 a7 a8 a9 a10 a11 a12 a13 a14 a15 a16 a17
              a18 a19 a20 a21 v a23 a24.

Definition set__gather (f : SegyFile) (v : option Gather) : SegyFile :=
  let 'mk_SegyFile a1 a2 a3 a4 a5 a6 a7 a8 a9 a10 a11 a12 a13 a14 a15 a16 a17
                   a18 a19 a20 a21 a22 _ a24 := f in
  mk_SegyFile a1 a2 a3 a4 a5 a6 a7 a8 a9 a10 a11 a12 a13 a14 a15 a16 a17
              a18 a19 a20 a21 a22 v a24.

Definition set_depth (f : SegyFile) (v : option Depth) : SegyFile :=
  let 'mk_SegyFile a1 a2 a3 a4 a5 a6 a7 a8 a9 a10 a11 a12 a13 a14 a15 a16 a17
                   a18 a19 a20 a21 a22 a23 _ := f in
  mk_SegyFile a1 a2 a3 a4 a5 a6 a7 a8 a9 a10 a11 a12 a13 a14 a15 a16 a17
              a18 a19 a20 a21 a22 a23 v.

(** ** The interpreter state around a file

    [next_oid] is the identity the next constructed object receives;
    [warnings] collects what [warnings.warn] was called with. *)
Record Runtime : Type := mk_Runtime {
  next_oid : oid;
  warnings : list string;
}.

Definition alloc (py : Runtime) : Runtime :=
  {| next_oid := S (next_oid py); warnings := warnings py |}.

Definition warn (msg : string) (py : Runtime) : Runtime :=
  {| next_oid := next_oid py; warnings := warnings py ++ [msg] |}.

(** A method of [SegyFile]: it reads and updates [self] and the interpreter
    state, and returns a value or raises. *)
Definition M (A : Type) : Type :=
  SegyFile -> Runtime -> result (A * SegyFile * Runtime).

Definition mret {A : Type} (a : A) : M A := fun self py => Ok (a, self, py).

Definition mraise {A : Type} (e : exn) : M A := fun _ _ => Raise e.

Definition mbind {A B : Type} (m : M A) (k : A -> M B) : M B :=
  fun self py =>
    match m self py with
    | Ok (a, self', py') => k a self' py'
    | Raise e => Raise e
    end.

Declare Scope method_scope.
Delimit Scope method_scope with method.
Notation "x <- m ;; k" := (mbind m (fun x => k))
  (at level 100, m at next level, right associativity) : method_scope.

(** ** [SegyFile] *)

Definition _unstructured_errmsg : string := "File opened in unstructured mode.".

(** The dictionary that [__init__] indexes with the format code; [None] is
    the [KeyError]. *)
Definition dtype_of_format (fmt : Z) : option np_dtype :=
  match fmt with
  | 1 => Some float32
  | 2 => Some int32
  | 3 => Some int16
  | 5 => Some float32
  | 8 => Some int8
  | _ => None
  end.

Definition unknown_format_warning (fmt : Z) : string :=
  ("Unknown trace value format " +:+ pretty fmt) +:+ ", " +:+
  "falling back to ibm float".

(** [SegyFile.__init__], from the point where the handle [fd] has been opened
    ([_segyio.segyiofd(...)] returned).  It constructs the [Trace] and the
    [Header] view, in that order. *)
Definition SegyFile_init (filename mode : string) (iline xline : Z)
    (fd : segyiofd) (py : Runtime) : SegyFile * Runtime :=
  let metrics := metrics fd in
  let '(fmt, dt, py1) :=
    match dtype_of_format (m_format metrics) with
    | Some d => (m_format metrics, d, py)
    | None => (1, float32, warn (unknown_format_warning (m_format metrics)) py)
    end in
  let tr := mk_Trace (next_oid py1) dt (m_tracecount metrics)
                     (m_samplecount metrics) (negb (contains_char "+"%char mode)) in
  let py2 := alloc py1 in
  let hd := mk_Header (next_oid py2) in
  let py3 := alloc py2 in
  (mk_SegyFile filename mode iline xline
               None None None None None
               None None None None
               fd fmt (m_tracecount metrics) (m_ext_headers metrics) dt
               tr hd None None None None,
   py3).

(** *** Plain properties *)

Definition dtype (self : SegyFile) : np_dtype := _dtype self.
Definition sorting (self : SegyFile) : option TraceSortingFormat := _sorting self.
Definition tracecount (self : SegyFile) : Z := _tracecount self.
Definition samples (self : SegyFile) : option (list Z) := _samples self.
Definition offsets (self : SegyFile) : option (list Z) := _offsets self.
Definition ext_headers (self : SegyFile) : Z := _ext_headers self.
Definition ilines (self : SegyFile) : option (list Z) := _ilines self.
Definition xlines (self : SegyFile) : option (list Z) := _xlines self.
Definition header (self : SegyFile) : Header := _header self.
Definition trace (self : SegyFile) : Trace := _trace self.

Definition readonly (self : SegyFile) : bool :=
  negb (contains_char "+"%char (_mode self)).

(** [self.ilines is None] *)
Definition unstructured (self : SegyFile) : bool :=
  match ilines self with
  | None => true
  | Some _ => false
  end.

(** [format]: the object returned answers [int()] and [str()]. *)
Definition format_int (self : SegyFile) : Z := _fmt self.

Definition format_str (self : SegyFile) : string :=
  match _fmt self with
  | 1 => "4-byte IBM float"
  | 2 => "4-byte signed integer"
  | 3 => "2-byte signed integer"
  | 4 => "4-byte fixed point with gain"
  | 5 => "4-byte IEEE float"
  | 8 => "1-byte signed char"
  | _ => "Unknown format"
  end.

(** *** View accessors *)

Definition iline : M Line := fun self py =>
  if unstructured self then Raise (ValueError _unstructured_errmsg)
  else match _iline self with
       | Some l => Ok (l, self, py)
       | None =>
           let l := mk_Line (next_oid py) (ilines self) (_iline_length self)
                            (_iline_stride self) (offsets self) "inline" in
           Ok (l, set__iline self (Some l), alloc py)
       end.

Definition xline : M Line := fun self py =>
  if unstructured self then Raise (ValueError _unstructured_errmsg)
  else match _xline self with
       | Some l => Ok (l, self, py)
       | None =>
           let l := mk_Line (next_oid py) (xlines self) (_xline_length self)
                            (_xline_stride self) (offsets self) "crossline" in
           Ok (l, set__xline self (Some l), alloc py)
       end.

Definition fast : M Line := fun self py =>
  if sorting_eq (sorting self) INLINE_SORTING then iline self py
  else if sorting_eq (sorting self) CROSSLINE_SORTING then xline self py
  else Raise (RuntimeError "Unknown sorting.").

Definition slow : M Line := fun self py =>
  if sorting_eq (sorting self) INLINE_SORTING then xline self py
  else if sorting_eq (sorting self) CROSSLINE_SORTING then iline self py
  else Raise (RuntimeError "Unknown sorting.").

Definition depth_slice : M Depth := fun self py =>
  if unstructured self then Raise (ValueError _unstructured_errmsg)
  else match depth self with
       | Some d => Ok (d, self, py)
       | None =>
           let d := mk_Depth (next_oid py) in
           Ok (d, set_depth self (Some d), alloc py)
       end.

(** The arguments of [Gather(...)] are evaluated left to right: [self.trace],
    [self.iline], [self.xline], [self.offsets]; then the object is built. *)
Definition gather : M Gather := fun self py =>
  if unstructured self then Raise (ValueError _unstructured_errmsg)
  else match _gather self with
       | Some g => Ok (g, self, py)
       | None =>
           (let tr := trace self in
            il <- iline ;;
            xl <- xline ;;
            fun self' py' =>
              let g := mk_Gather (next_oid py') tr il xl (offsets self') in
              Ok (g, set__gather self' (Some g), alloc py'))%method self py
       end.

Definition text : M TextHeader := fun self py =>
  Ok (mk_TextHeader (next_oid py) self, self, alloc py).

(** *** [attributes]

    The object that [attributes(field)] returns is indexed with an integer,
    a slice, or an iterable of trace indices. *)
Inductive subscript : Type :=
| Index (i : Z)
| Slice (start stop step : option Z)
| Indices (xs : list Z).

(** [attr._getitem_list] for a Python list [xs]. *)
Definition attr_getitem_list (self : SegyFile) (field : Z) (xs : list Z)
    : result (list Z) :=
  (xs <- asarray_intc xs ;;
   let attrs := np_empty (length xs) in
   field_foreach (xfd self) attrs xs field)%py.

(** [attr.__getitem__], from the point where [rng] is a slice: the subscript
    itself, or [slice(rng, rng + 1, 1)] for a subscript that is neither
    iterable nor a slice. *)
Definition attr_getitem_range (self : SegyFile) (field : Z)
    (start stop step : option Z) : result (list Z) :=
  let traces := tracecount self in
  (r <- slice_indices start stop step traces ;;
   let '(start, stop, step) := r in
   let attrs := np_empty (Z.to_nat (range_len start stop step)) in
   field_forall (xfd self) attrs start stop step field)%py.

(** [attr.__getitem__] *)
Definition attr_getitem (self : SegyFile) (field : Z) (rng : subscript)
    : result (list Z) :=
  match rng with
  | Indices xs => attr_getitem_list self field xs
  | Slice start stop step => attr_getitem_range self field start stop step
  | Index i => attr_getitem_range self field (Some i) (Some (i + 1)) (Some 1)
  end.

Definition attributes (self : SegyFile) (field : Z)
    : subscript -> result (list Z) :=
  attr_getitem self field.

(** ** [TextHeader] *)

Definition text_not_in_file (index : Z) : string :=
  ("Textual header " +:+ pretty index) +:+ " not in file".

Definition TextHeader_getitem (self : TextHeader) (index : Z) : result string :=
  if negb ((0 <=? index) && (index <=? ext_headers (outer self)))
  then Raise (IndexError (text_not_in_file index))
  else gettext (xfd (outer self)) index.

(** The right-hand side of [text[index] = val]. *)
Inductive text_value : Type :=
| VStr (s : string)
| VTextHeader (g : TextHeader).

(** [__setitem__] with a value that is not a [TextHeader]; the result is the
    new state of [outer]. *)
Definition TextHeader_setitem_str (self : TextHeader) (index : Z) (val : string)
    : result SegyFile :=
  if negb ((0 <=? index) && (index <=? ext_headers (outer self)))
  then Raise (IndexError (text_not_in_file index))
  else (fd <- puttext (xfd (outer self)) index val ;;
        Ok (set_xfd (outer self) fd))%py.

(** [__setitem__]: for a [TextHeader] value it evaluates [val[0]] and calls
    itself with the text read, which is not a [TextHeader]. *)
Definition TextHeader_setitem (self : TextHeader) (index : Z) (val : text_value)
    : result SegyFile :=
  match val with
  | VTextHeader g =>
      (s <- TextHeader_getitem g 0 ;; TextHeader_setitem_str self index s)%py
  | VStr s => TextHeader_setitem_str self index s
  end.

(** ** Geometry *)

(** Modelled from the spec: the Geometry of section 3, the result of a
    successful resolution. *)
Record Geometry : Type := mk_Geometry {
  g_sorting : TraceSortingFormat;
  g_ilines : list Z;
  g_xlines : list Z;
  g_offsets : list Z;
  g_iline_length : Z;
  g_iline_stride : Z;
  g_xline_length : Z;
  g_xline_stride : Z;
}.

(** Modelled from the spec: the Geometry Resolver, which [segyio.open] runs
    once after [__init__] (open.py is not part of segy.py).  Sections 3 and
    4.1: it yields a Geometry, or marks the file unstructured; then [ilines]
    and [xlines] are absent and sorting, line lengths and strides are
    undefined, represented as absent.  The resolution algorithm reads the
    header coordinates; its outcome is the argument [r] here. *)
Definition infer_geometry (f : SegyFile) (r : option Geometry) : SegyFile :=
  let 'mk_SegyFile a1 a2 a3 a4 _ _ a7 a8 _ _ _ _ _ a14 a15 a16 a17
                   a18 a19 a20 a21 a22 a23 a24 := f in
  match r with
  | Some g =>
      mk_SegyFile a1 a2 a3 a4
                  (Some (g_ilines g)) (Some (g_xlines g)) (Some (g_offsets g))
                  a8 (Some (g_sorting g))
                  (Some (g_iline_length g)) (Some (g_iline_stride g))
                  (Some (g_xline_length g)) (Some (g_xline_stride g))
                  a14 a15 a16 a17 a18 a19 a20 a21 a22 a23 a24
  | None =>
      mk_SegyFile a1 a2 a3 a4 None None a7 a8 None None None None None
                  a14 a15 a16 a17 a18 a19 a20 a21 a22 a23 a24
  end.

(** Modelled from the spec: [segyio.open] (section 3, lifecycle), which
    constructs the file on an opened handle and then resolves the geometry. *)
Definition open (filename mode : string) (iline xline : Z) (fd : segyiofd)
    (r : option Geometry) (py : Runtime) : SegyFile * Runtime :=
  let '(f, py') := SegyFile_init filename mode iline xline fd py in
  (infer_geometry f r, py').

(** ** Macro assignment *)

(** Modelled from the spec: the slice assignment [view[:] = val] of the view
    classes [Trace], [Header], [Line] and [Depth] (trace.py, line.py and
    depth.py are not part of segy.py).  Section 4.6: given an ordered
    destination range of size [N] and a source of items, consume the items in
    order and write them to destination positions 0, 1, ...; stop as soon as
    the destination range or the source is exhausted.

    A view class provides the size of its destination range, the write of one
    item at one position ([view[j] = x]) and the read of one position.  Writing
    one position leaves the other positions as they were.  The source is the
    list of the items its iteration yields.  A write that the transport layer
    refuses is outside this model. *)
Class MacroView (V X : Type) : Type := {
  view_len : V -> SegyFile -> nat;
  view_put : V -> nat -> X -> segyiofd -> segyiofd;
  view_get : V -> nat -> segyiofd -> option X;
  view_put_frame : forall v j j' x fd,
    j <> j' -> view_get v j' (view_put v j x fd) = view_get v j' fd;
}.

(** Modelled from the spec: the loop of section 4.6, from position [pos], with
    [todo] positions of the destination range left. *)
Fixpoint assign_from {V X : Type} `{!MacroView V X} (v : V) (pos todo : nat)
    (src : list X) (fd : segyiofd) : segyiofd :=
  match todo, src with
  | S todo', x :: src' => assign_from v (S pos) todo' src' (view_put v pos x fd)
  | _, _ => fd
  end.

(** Modelled from the spec: [view[:] = val], the protocol over the full range
    [0, len(view))]. *)
Definition setitem_all {V X : Type} `{!MacroView V X} (v : V) (val : list X)
    : M unit :=
  fun self py =>
    Ok (tt, set_xfd self (assign_from v 0 (view_len v self) val (xfd self)), py).

(** Modelled from the spec: the trace store as a flat sequence view
    (section 2).  [write_trace(handle, index, data)] replaces the sample array
    of record [index]. *)
Global Instance Trace_view : MacroView Trace (list sample).
Proof.
  refine {|
    view_len := fun tr _ => Z.to_nat (trace_tracecount tr);
    view_put := fun _ j x fd =>
      with_records fd (alter (fun r => (r.1, x)) j (fd_records fd));
    view_get := fun _ j fd => snd <$> fd_records fd !! j |}.
  intros v j j' x fd Hne. simpl. by rewrite list_lookup_alter_ne.
Defined.

(** Modelled from the spec: the header store as a flat sequence view
    (section 2).  A header write replaces the header of record [index]. *)
Global Instance Header_view : MacroView Header trace_header.
Proof.
  refine {|
    view_len := fun _ self => Z.to_nat (tracecount self);
    view_put := fun _ j x fd =>
      with_records fd (alter (fun r => (x, r.2)) j (fd_records fd));
    view_get := fun _ j fd => fst <$> fd_records fd !! j |}.
  intros v j j' x fd Hne. simpl. by rewrite list_lookup_alter_ne.
Defined.

(** *** The macro-assignment setters of [SegyFile] *)

Definition trace_setter (val : list (list sample)) : M unit :=
  fun self py => setitem_all (trace self) val self py.

Definition header_setter (val : list trace_header) : M unit :=
  fun self py => setitem_all (header self) val self py.

Section LineAndDepthSetters.
(** The item types and the item-level operations of [Line] and [Depth]. *)
Context {LineItem DepthItem : Type}.
Context `{!MacroView Line LineItem} `{!MacroView Depth DepthItem}.

Definition iline_setter (value : list LineItem) : M unit :=
  (l <- iline ;; setitem_all l value)%method.

Definition xline_setter (value : list LineItem) : M unit :=
  (l <- xline ;; setitem_all l value)%method.

Definition depth_slice_setter (value : list DepthItem) : M unit :=
  (d <- depth_slice ;; setitem_all d value)%method.
End LineAndDepthSetters.

(** *** Two addressings that implement the interface *)

(** Modelled from the spec: section 4.4, a depth-slice write is the protocol
    applied per trace at a fixed sample offset.  Position [d] of the view is
    sample [d] of every trace; an item is one sample per trace, in trace
    order. *)
Fixpoint put_samples (d : nat) (vals : list sample)
    (rs : list (trace_header * list sample))
    : list (trace_header * list sample) :=
  match rs, vals with
  | r :: rs', v :: vals' => (r.1, <[d := v]> r.2) :: put_samples d vals' rs'
  | _, _ => rs
  end.

(** Modelled from the spec: the read of a depth slice, one sample per
    trace. *)
Definition get_samples (d : nat) (rs : list (trace_header * list sample))
    : option (list sample) :=
  mapM (fun r : trace_header * list sample => r.2 !! d) rs.

Lemma put_samples_frame (d d' : nat) (vals : list sample)
    (rs : list (trace_header * list sample)) :
  d <> d' -> get_samples d' (put_samples d vals rs) = get_samples d' rs.
Proof.
  intros Hne. revert vals.
  induction rs as [|r rs IH]; intros [|v vals]; try reflexivity.
  unfold get_samples in *. cbn.
  rewrite list_lookup_insert_ne by done.
  by rewrite IH.
Qed.

(** Modelled from the spec: the depth-slice view of section 4.4 over the
    [samplecount] sample positions. *)
Definition Depth_view : MacroView Depth (list sample) :=
  {| view_len := fun _ self => Z.to_nat (trace_samplecount (trace self));
     view_put := fun _ d vals fd =>
       with_records fd (put_samples d vals (fd_records fd));
     view_get := fun _ d fd => get_samples d (fd_records fd);
     view_put_frame := fun _ d d' vals fd Hne =>
       put_samples_frame d d' vals (fd_records fd) Hne |}.

(** The [length] a line handle was constructed with. *)
Definition line_len (l : Line) : nat := Z.to_nat (default 0 (line_length l)).

(** Modelled from the spec: the write of one line, trace by trace, from the
    trace index [at_]. *)
Fixpoint put_traces (at_ : nat) (todo : nat) (x : list (list sample))
    (rs : list (trace_header * list sample))
    : list (trace_header * list sample) :=
  match todo, x with
  | S todo', t :: x' =>
      put_traces (S at_) todo' x' (alter (fun r => (r.1, t)) at_ rs)
  | _, _ => rs
  end.

(** Modelled from the spec: the read of one line, [n] traces from the trace
    index [at_]. *)
Definition get_traces (at_ : nat) (n : nat)
    (rs : list (trace_header * list sample)) : option (list (list sample)) :=
  mapM (fun p => snd <$> rs !! p) (seq at_ n).

Lemma put_traces_lookup_ne (at_ todo : nat) (x : list (list sample))
    (rs : list (trace_header * list sample)) (i : nat) :
  (i < at_ \/ at_ + todo <= i)%nat ->
  put_traces at_ todo x rs !! i = rs !! i.
Proof.
  revert at_ x rs. induction todo as [|todo IH]; intros at_ [|t x] rs Hi;
    try reflexivity.
  cbn. rewrite IH by lia. apply list_lookup_alter_ne. lia.
Qed.

Lemma put_traces_frame (n j j' : nat) (x : list (list sample))
    (rs : list (trace_header * list sample)) :
  j <> j' ->
  get_traces (j' * n) n (put_traces (j * n) n x rs) = get_traces (j' * n) n rs.
Proof.
  intros Hne. unfold get_traces.
  apply Forall_mapM_ext, Forall_forall. intros p Hp.
  apply elem_of_seq in Hp.
  rewrite put_traces_lookup_ne; [done|]. nia.
Qed.

(** Modelled from the spec: section 3, a line maps to the index set
    [base(L) + p * stride] for [p] in [0, length).  This is the addressing of
    the axis that is contiguous in a file with one offset: stride 1, and
    [base] of the line at position [j] of the labels is [j * length].  An
    item is the line's traces in order; writing it follows the protocol as
    well (section 4.2). *)
Definition Line_view : MacroView Line (list (list sample)) :=
  {| view_len := fun l _ => length (default [] (line_labels l));
     view_put := fun l j x fd =>
       with_records fd
         (put_traces (j * line_len l) (line_len l) x (fd_records fd));
     view_get := fun l j fd =>
       get_traces (j * line_len l) (line_len l) (fd_records fd);
     view_put_frame := fun l j j' x fd Hne =>
       put_traces_frame (line_len l) j j' x (fd_records fd) Hne |}.

(** * Vocabulary of the statements *)

(** ** A small survey, used to evaluate the definitions

    Two inlines 1, 2 and three crosslines 10, 20, 30 with one offset: six
    traces of two samples, inline 189 and crossline 193 in each header, and a
    primary text header with one extended header. *)
Definition header_of (il xl : Z) : trace_header :=
  fun field => if field =? 189 then il else if field =? 193 then xl else 0.

Definition survey_fd : segyiofd :=
  {| fd_format := 1;
     fd_samplecount := 2;
     fd_text := ["C 1 primary"; "C 1 extended"];
     fd_records :=
       [ (header_of 1 10, [100; 101]); (header_of 1 20, [110; 111]);
         (header_of 1 30, [120; 121]); (header_of 2 10, [200; 201]);
         (header_of 2 20, [210; 211]); (header_of 2 30, [220; 221]) ] |}.

Definition survey_geometry : Geometry :=
  {| g_sorting := INLINE_SORTING;
     g_ilines := [1; 2]; g_xlines := [10; 20; 30]; g_offsets := [1];
     g_iline_length := 3; g_iline_stride := 1;
     g_xline_length := 2; g_xline_stride := 3 |}.

Definition py0 : Runtime := {| next_oid := 0%nat; warnings := [] |}.

(** The survey opened with its geometry, and opened when resolution failed. *)
Definition survey : SegyFile :=
  (open "survey.sgy" "r+" 189 193 survey_fd (Some survey_geometry) py0).1.

Definition survey_py : Runtime :=
  (open "survey.sgy" "r+" 189 193 survey_fd (Some survey_geometry) py0).2.

Definition shots : SegyFile :=
  (open "shots.sgy" "r" 189 193 survey_fd None py0).1.

(** The sample-format codes that [__init__] maps to a dtype. *)
Definition supported_format (fmt : Z) : Prop :=
  fmt = 1 \/ fmt = 2 \/ fmt = 3 \/ fmt = 5 \/ fmt = 8.

(** [ilines] is empty or absent. *)
Definition ilines_empty_or_absent (f : SegyFile) : Prop :=
  match ilines f with
  | None => True
  | Some l => l = []
  end.

(** A file whose geometry has no inline labels at all. *)
Definition no_lines : SegyFile :=
  (open "empty.sgy" "r" 189 193 (mk_segyiofd 1 2 ["C 1"] [])
        (Some (mk_Geometry INLINE_SORTING [] [] [1] 0 1 0 1)) py0).1.

(** The counts that [__init__] copied from the handle's metrics are those of
    the handle.  Every opened file satisfies it, and text and flat-view
    writes keep it. *)
Definition consistent (f : SegyFile) : Prop :=
  tracecount f = m_tracecount (metrics (xfd f))
  /\ ext_headers f = m_ext_headers (metrics (xfd f)).

(** A view whose positions hold single items: a slot that exists holds what
    was last written to it.  The two flat sequence views are of this kind. *)
Class ExactView (V X : Type) `{!MacroView V X} : Prop := {
  view_put_get : forall (v : V) j (x : X) fd,
    is_Some (view_get v j fd) -> view_get v j (view_put v j x fd) = Some x;
}.

(** The writes the protocol performs on a view, in order, and their effect
    on the store. *)
Definition writes {X : Type} (pos todo : nat) (src : list X) : list (nat * X) :=
  zip (seq pos todo) src.

Definition apply_writes {V X : Type} `{!MacroView V X} (v : V)
    (ws : list (nat * X)) (fd : segyiofd) : segyiofd :=
  foldl (fun fd w => view_put v w.1 w.2 fd) fd ws.

(** A property read as an accessor: it returns the attribute and changes
    nothing. *)
Definition property {A : Type} (p : SegyFile -> A) : M A :=
  fun self py => Ok (p self, self, py).

(** Macro assignment by one setter.  The setter evaluates its view accessor and
    fails as the accessor does; otherwise it returns without error, and the
    store it leaves is the one obtained by the writes
    [view[0] = val[0]; view[1] = val[1]; ...], which are [min N k] in number,
    for the [N] positions of the view and the [k] items of the source.
    Positions from [k] on read as before, and the items of the source beyond
    the first [N] make no difference. *)
Definition macro_assigns {V X : Type} `{!MacroView V X}
    (accessor : M V) (setter : list X -> M unit) : Prop :=
  forall (val : list X) (self : SegyFile) (py : Runtime),
    match accessor self py with
    | Raise e => setter val self py = Raise e
    | Ok (v, self1, py1) =>
        let N := view_len v self1 in
        let ws := writes 0 N val in
        let fd' := apply_writes v ws (xfd self1) in
        setter val self py = Ok (tt, set_xfd self1 fd', py1)
        /\ length ws = Nat.min N (length val)
        /\ (forall k : nat, (k < Nat.min N (length val))%nat ->
              exists x, val !! k = Some x /\ ws !! k = Some (k, x))
        /\ (forall j : nat, (length val <= j)%nat ->
              view_get v j fd' = view_get v j (xfd self1))
        /\ setter (take N val) self py = setter val self py
    end.

(** * Further methods of segy.py *)

(** ** Exceptions with [TypeError]

    [__str__] of [SegyFile] and of [TextHeader] can fail with a [TypeError]
    besides the exceptions above. *)
Inductive err : Type :=
| Builtin (e : exn)
| TypeError (msg : string).

Inductive outcome (A : Type) : Type :=
| Return (a : A)
| Throw (e : err).
Arguments Return {A} a.
Arguments Throw {A} e.

Definition obind {A B : Type} (o : outcome A) (k : A -> outcome B) : outcome B :=
  match o with
  | Return a => k a
  | Throw e => Throw e
  end.

Definition lift {A : Type} (r : result A) : outcome A :=
  match r with
  | Ok a => Return a
  | Raise e => Throw (Builtin e)
  end.

Declare Scope outcome_scope.
Delimit Scope outcome_scope with outcome.
Notation "x <- o ;; k" := (obind o (fun x => k))
  (at level 100, o at next level, right associativity) : outcome_scope.

(** ** Python built-ins of the string methods *)

(** [sep.join(parts)] *)
Definition join (sep : string) (parts : list string) : string :=
  String.concat sep parts.

Definition newline : string := String.String (ascii_of_nat 10) String.EmptyString.

(** What is passed to [warnings.warn]: a text, or a class object that is a
    subclass of [Warning] (such as [DeprecationWarning]). *)
Inductive warn_arg : Type :=
| WText (s : string)
| WClass (name : string).

(** [warnings.warn(message, category)] with both arguments given.  The
    category must be a [Warning] subclass; a category that is not a class is
    refused with a [TypeError] before anything is recorded. *)
Definition warnings_warn (message category : warn_arg) (py : Runtime)
    : outcome Runtime :=
  match category with
  | WClass _ =>
      Return (warn (match message with
                    | WText s => s
                    | WClass n => ("<class '" +:+ n) +:+ "'>"
                    end) py)
  | WText _ =>
      Throw (TypeError "category must be a Warning subclass, not 'str'")
  end.

(** [zip( *[iter(text)] * width )] joined group by group: the full groups of
    [width] characters of [text], in order; an incomplete last group is
    dropped. *)
Definition full_groups (width : nat) (text : string) : list string :=
  (fun i => String.substring (width * i) width text)
    <$> seq 0 (String.length text / width).

(** [x[0]], [x[-1]] and [len(x)] for a value that is a sequence or [None]. *)
Definition py_len (x : option (list Z)) : outcome Z :=
  match x with
  | Some l => Return (Z.of_nat (length l))
  | None => Throw (TypeError "object of type 'NoneType' has no len()")
  end.

Definition py_first (x : option (list Z)) : outcome Z :=
  match x with
  | Some (a :: _) => Return a
  | Some [] => Throw (Builtin (IndexError "index 0 is out of bounds"))
  | None => Throw (TypeError "'NoneType' object is not subscriptable")
  end.

Definition py_last (x : option (list Z)) : outcome Z :=
  match x with
  | Some l =>
      match last l with
      | Some a => Return a
      | None => Throw (Builtin (IndexError "index -1 is out of bounds"))
      end
  | None => Throw (TypeError "'NoneType' object is not subscriptable")
  end.

Section Stringification.
(** [str()] of the value that [gettext] returns, and [str()] of a numpy array
    of sample positions: both are formatting done outside segy.py. *)
Variable str_text : string -> string.
Variable str_array : list Z -> string.

(** ["  <name>: {} [{}, {}]".format(len(x), x[0], x[-1])], the argument
    expressions evaluated left to right. *)
Definition line_summary (name : string) (x : option (list Z)) : outcome string :=
  (n <- py_len x ;;
   a <- py_first x ;;
   b <- py_last x ;;
   Return (((((("  " +:+ name) +:+ ": ") +:+ pretty n) +:+ " [") +:+ pretty a)
             +:+ ", " +:+ pretty b +:+ "]"))%outcome.

(** [SegyFile.__str__] *)
Definition SegyFile_str (self : SegyFile) : outcome string :=
  let f := ("SegyFile " +:+ _filename self) +:+ ":" in
  (ixo <-
     (if unstructured self
      then Return ("  inlines: None", "  crosslines: None", "  offsets: None")
      else
        (il <- line_summary "inlines" (ilines self) ;;
         xl <- line_summary "crosslines" (xlines self) ;;
         of_ <- line_summary "offsets" (offsets self) ;;
         Return (il, xl, of_))) ;;
   let '(il, xl, of_) := ixo in
   let tr := "  traces: " +:+ pretty (tracecount self) in
   let sm := "  samples: " +:+ match samples self with
                                | None => "None"
                                | Some a => str_array a
                                end in
   let fmt := "  float representation: " +:+ format_str self in
   let props := [f; il; xl; tr; sm] in
   let props :=
     match offsets self with
     | Some o => if 1 <? Z.of_nat (length o) then props ++ [of_] else props
     | None => props
     end in
   let props := props ++ [fmt] in
   Return (join newline props))%outcome.

(** [SegyFile.__repr__] *)
Definition SegyFile_repr (self : SegyFile) : string :=
  ((((((("SegyFile('" +:+ _filename self) +:+ "', '") +:+ _mode self)
       +:+ "', iline = ") +:+ pretty (_il self)) +:+ ", xline = ")
     +:+ pretty (_xl self)) +:+ ")".

(** [TextHeader.__repr__] *)
Definition TextHeader_repr (self : TextHeader) : string :=
  ("Text(external_headers = " +:+ pretty (ext_headers (outer self))) +:+ ")".

(** [TextHeader.__str__] *)
Definition TextHeader_str (self : TextHeader) (py : Runtime)
    : outcome (string * Runtime) :=
  let msg := "str(text) is deprecated, use explicit format instead" in
  (py' <- warnings_warn (WClass "DeprecationWarning") (WText msg) py ;;
   t <- lift (TextHeader_getitem self 0) ;;
   Return (join newline (full_groups 80 (str_text t)), py'))%outcome.
End Stringification.

(** ** Predicates on the state of a file *)

(** Two states of a file that differ at most in the cached views. *)
Definition same_data (f f' : SegyFile) : Prop :=
  _filename f' = _filename f /\ _mode f' = _mode f
  /\ _il f' = _il f /\ _xl f' = _xl f
  /\ _ilines f' = _ilines f /\ _xlines f' = _xlines f
  /\ _offsets f' = _offsets f /\ _samples f' = _samples f
  /\ _sorting f' = _sorting f
  /\ _iline_length f' = _iline_length f /\ _iline_stride f' = _iline_stride f
  /\ _xline_length f' = _xline_length f /\ _xline_stride f' = _xline_stride f
  /\ xfd f' = xfd f /\ _fmt f' = _fmt f /\ _tracecount f' = _tracecount f
  /\ _ext_headers f' = _ext_headers f /\ _dtype f' = _dtype f
  /\ _trace f' = _trace f /\ _header f' = _header f.

(** The line handle that the accessor of one axis constructs from the
    geometry of [self]. *)
Definition is_iline_of (self : SegyFile) (l : Line) : Prop :=
  line_labels l = ilines self /\ line_length l = _iline_length self
  /\ line_stride l = _iline_stride self /\ line_offsets l = offsets self
  /\ line_direction l = "inline".

Definition is_xline_of (self : SegyFile) (l : Line) : Prop :=
  line_labels l = xlines self /\ line_length l = _xline_length self
  /\ line_stride l = _xline_stride self /\ line_offsets l = offsets self
  /\ line_direction l = "crossline".

(** The cached views describe the file they are cached in: a cached line is
    the handle of its axis, and a cached gather holds the cached lines, the
    file's trace view and its offsets. *)
Definition cache_coherent (self : SegyFile) : Prop :=
  (forall l, _iline self = Some l -> is_iline_of self l)
  /\ (forall l, _xline self = Some l -> is_xline_of self l)
  /\ (forall g, _gather self = Some g ->
        _iline self = Some (gather_iline g)
        /\ _xline self = Some (gather_xline g)
        /\ gather_trace g = trace self
        /\ gather_offsets g = offsets self).


Definition returns {A : Type} (o : outcome A) : Prop :=
  match o with
  | Return _ => True
  | Throw _ => False
  end.

(** * Properties *)

(** ** The survey evaluated *)

Example survey_metrics :
  (tracecount survey, ext_headers survey, dtype survey, readonly survey,
   unstructured survey, unstructured shots, readonly shots)
  = (6, 1, float32, false, false, true, true).
Proof. reflexivity. Qed.

Example survey_attributes :
  attributes survey 193 (Slice None None (Some 2)) = Ok [10; 30; 20]
  /\ attributes survey 193 (Indices [5; 0; 0; 3]) = Ok [30; 10; 10; 10]
  /\ attributes survey 189 (Slice (Some (-1)) None (Some (-1)))
     = Ok [2; 2; 2; 1; 1; 1]
  /\ attributes survey 193 (Index 4) = Ok [20].
Proof. repeat split; reflexivity. Qed.

Example survey_text :
  TextHeader_getitem (mk_TextHeader 7%nat survey) 1 = Ok "C 1 extended"
  /\ raises (TextHeader_getitem (mk_TextHeader 7%nat survey) 2) KIndexError.
Proof. split; reflexivity. Qed.

Example survey_fast_slow :
  (exists self py, fast survey survey_py
     = Ok (mk_Line 2%nat (Some [1; 2]) (Some 3) (Some 1) (Some [1]) "inline",
           self, py))
  /\ (exists self py, slow survey survey_py
     = Ok (mk_Line 2%nat (Some [10; 20; 30]) (Some 2) (Some 3) (Some [1])
                   "crossline", self, py))
  /\ fast shots survey_py = Raise (RuntimeError "Unknown sorting.").
Proof. repeat split; eexists _, _; reflexivity. Qed.

(** ** Sample formats ([__init__]) *)

Lemma dtype_of_format_None (fmt : Z) :
  ~ supported_format fmt -> dtype_of_format fmt = None.
Proof.
  unfold supported_format. intros H.
  destruct fmt as [|p|p]; try reflexivity.
  do 4 (try destruct p as [p|p|]); try reflexivity; exfalso; apply H; lia.
Qed.

Lemma dtype_of_format_Some (fmt : Z) :
  supported_format fmt ->
  dtype_of_format fmt
  = Some (if fmt =? 2 then int32 else if fmt =? 3 then int16
          else if fmt =? 8 then int8 else float32).
Proof. intros [->|[->|[->|[->| ->]]]]; reflexivity. Qed.

(** C6.  Opening a file whose sample-format code is not one of 1, 2, 3, 5, 8
    does not fail: [__init__] completes, emits one warning, and falls back to
    format 1 with the 4-byte [float32] dtype.  For a supported code no warning
    is emitted, the code is kept and the dtype is the fixed mapping
    1 -> float32, 2 -> int32, 3 -> int16, 5 -> float32, 8 -> int8. *)
Theorem init_sample_format (filename mode : string) (il xl : Z)
    (fd : segyiofd) (py : Runtime) :
  let fmt := fd_format fd in
  let f := (SegyFile_init filename mode il xl fd py).1 in
  let py' := (SegyFile_init filename mode il xl fd py).2 in
  (~ supported_format fmt ->
     format_int f = 1 /\ dtype f = float32 /\ itemsize (dtype f) = 4
     /\ trace_dtype (trace f) = float32
     /\ warnings py' = warnings py ++ [unknown_format_warning fmt])
  /\ (supported_format fmt ->
     format_int f = fmt /\ warnings py' = warnings py
     /\ trace_dtype (trace f) = dtype f)
  /\ (fmt = 1 -> dtype f = float32)
  /\ (fmt = 2 -> dtype f = int32)
  /\ (fmt = 3 -> dtype f = int16)
  /\ (fmt = 5 -> dtype f = float32)
  /\ (fmt = 8 -> dtype f = int8).
Proof.
  intros fmt f py'. subst f py'. unfold SegyFile_init.
  change (m_format (metrics fd)) with fmt.
  split; [|split].
  - intros Hno. rewrite (dtype_of_format_None fmt Hno). by cbn.
  - intros Hyes. rewrite (dtype_of_format_Some fmt Hyes). by cbn.
  - repeat split; intros E; rewrite E; reflexivity.
Qed.

(** The fallback on a concrete handle: format code 4. *)
Lemma init_sample_format_witness :
  let fd := mk_segyiofd 4 2 ["C 1"] [] in
  let r := SegyFile_init "f.sgy" "r" 189 193 fd py0 in
  ~ supported_format 4
  /\ format_int r.1 = 1 /\ dtype r.1 = float32
  /\ warnings r.2
     = ["Unknown trace value format 4, falling back to ibm float"].
Proof.
  assert (H4 : ~ supported_format 4) by (unfold supported_format; lia).
  split; [exact H4|].
  pose proof (init_sample_format "f.sgy" "r" 189 193
                (mk_segyiofd 4 2 ["C 1"] []) py0) as H.
  cbv zeta in H. destruct H as [H _]. specialize (H H4).
  destruct H as (Hf & Hd & _ & _ & Hw).
  split; [exact Hf|]. split; [exact Hd|]. exact Hw.
Defined.

(** ** Unstructured files *)

(** The four guarded accessors raise the same [ValueError] on every file
    whose [ilines] is [None]. *)
Lemma unstructured_accessors_raise (f : SegyFile) (py : Runtime) :
  unstructured f = true ->
  iline f py = Raise (ValueError _unstructured_errmsg)
  /\ xline f py = Raise (ValueError _unstructured_errmsg)
  /\ gather f py = Raise (ValueError _unstructured_errmsg)
  /\ depth_slice f py = Raise (ValueError _unstructured_errmsg).
Proof.
  intros Hu. unfold iline, xline, gather, depth_slice. rewrite Hu. done.
Qed.

Lemma infer_geometry_failed (f0 : SegyFile) :
  let f := infer_geometry f0 None in
  ilines f = None /\ xlines f = None /\ sorting f = None
  /\ _iline_length f = None /\ _iline_stride f = None
  /\ _xline_length f = None /\ _xline_stride f = None.
Proof. destruct f0. cbn. done. Qed.

Lemma infer_geometry_resolved (f0 : SegyFile) (g : Geometry) :
  unstructured (infer_geometry f0 (Some g)) = false.
Proof. destruct f0. reflexivity. Qed.

(** C1.  On every file whose geometry resolution failed, [ilines], [xlines]
    and [sorting] are [None], and each of the accessors [iline], [xline],
    [gather] and [depth_slice] raises the [ValueError] "File opened in
    unstructured mode." instead of returning a view. *)
Theorem unstructured_file_access (f0 : SegyFile) (py : Runtime) :
  let f := infer_geometry f0 None in
  ilines f = None /\ xlines f = None /\ sorting f = None
  /\ unstructured f = true
  /\ iline f py = Raise (ValueError _unstructured_errmsg)
  /\ xline f py = Raise (ValueError _unstructured_errmsg)
  /\ gather f py = Raise (ValueError _unstructured_errmsg)
  /\ depth_slice f py = Raise (ValueError _unstructured_errmsg).
Proof.
  intros f.
  destruct (infer_geometry_failed f0) as (Hi & Hx & Hs & _).
  assert (Hu : unstructured f = true) by (unfold unstructured, f; by rewrite Hi).
  repeat (split; [assumption|]).
  apply unstructured_accessors_raise, Hu.
Qed.

(** C5, as stated, fails: with an empty (but present) [ilines] the file is
    not unstructured. *)
Lemma unstructured_iff_empty_counterexample :
  ~ (unstructured no_lines = true <-> ilines_empty_or_absent no_lines).
Proof.
  intros [_ H].
  assert (E : unstructured no_lines = true) by (apply H; reflexivity).
  discriminate E.
Qed.

(** C5, amended.  A file is unstructured exactly when its [ilines] is absent
    ([None]); a present [ilines], empty or not, makes it structured.  On an
    opened file that is unstructured, [sorting], [xlines] and the line lengths
    and strides are all [None]. *)
Theorem unstructured_iff_ilines_absent :
  (forall f : SegyFile, unstructured f = true <-> ilines f = None)
  /\ (forall f : SegyFile, forall l, ilines f = Some l -> unstructured f = false)
  /\ (forall filename mode il xl fd r py,
        let f := (open filename mode il xl fd r py).1 in
        unstructured f = true ->
        sorting f = None /\ xlines f = None
        /\ _iline_length f = None /\ _iline_stride f = None
        /\ _xline_length f = None /\ _xline_stride f = None).
Proof.
  split; [|split].
  - intros f. unfold unstructured. destruct (ilines f); split; done.
  - intros f l E. unfold unstructured. by rewrite E.
  - intros filename mode il xl fd r py f Hu. subst f. unfold open in *.
    destruct (SegyFile_init filename mode il xl fd py) as [f0 py'].
    cbn [fst] in *. destruct r as [g|].
    + by rewrite infer_geometry_resolved in Hu.
    + destruct (infer_geometry_failed f0) as (_ & Hx & Hs & H1 & H2 & H3 & H4).
      done.
Qed.

Lemma unstructured_iff_ilines_absent_witness :
  unstructured shots = true
  /\ sorting shots = None /\ xlines shots = None
  /\ _iline_length shots = None /\ _iline_stride shots = None
  /\ _xline_length shots = None /\ _xline_stride shots = None.
Proof.
  split; [reflexivity|].
  destruct unstructured_iff_ilines_absent as (_ & _ & H).
  apply (H "shots.sgy" "r" 189 193 survey_fd None py0). reflexivity.
Defined.

(** C8, as stated, fails: on the file whose resolution failed, [fast] does not
    raise the [ValueError] that [iline] raises. *)
Lemma fast_slow_unstructured_counterexample :
  unstructured shots = true
  /\ raises (iline shots py0) KValueError
  /\ ~ raises (fast shots py0) KValueError
  /\ ~ raises (slow shots py0) KValueError.
Proof. repeat split; cbn; discriminate. Qed.

(** C8, amended.  On every unstructured file, accessing [fast] or [slow]
    fails.  The error is the [RuntimeError] "Unknown sorting." when the
    sorting is neither inline nor crossline, in particular when it is absent;
    it is the [ValueError] of the line accessors when the sorting is inline
    or crossline. *)
Theorem fast_slow_unstructured (f : SegyFile) (py : Runtime) :
  unstructured f = true ->
  let e := if sorting_eq (sorting f) INLINE_SORTING
              || sorting_eq (sorting f) CROSSLINE_SORTING
           then ValueError _unstructured_errmsg
           else RuntimeError "Unknown sorting." in
  fast f py = Raise e /\ slow f py = Raise e
  /\ (sorting f = None -> e = RuntimeError "Unknown sorting.").
Proof.
  intros Hu e. subst e.
  destruct (unstructured_accessors_raise f py Hu) as (Hi & Hx & _).
  unfold fast, slow. rewrite Hi, Hx.
  destruct (sorting_eq (sorting f) INLINE_SORTING) eqn:E1;
    destruct (sorting_eq (sorting f) CROSSLINE_SORTING) eqn:E2; cbn;
    repeat split; try done; intros Hs; rewrite Hs in *; discriminate.
Qed.

Lemma fast_slow_unstructured_witness :
  unstructured shots = true
  /\ fast shots py0 = Raise (RuntimeError "Unknown sorting.")
  /\ slow shots py0 = Raise (RuntimeError "Unknown sorting.").
Proof.
  assert (Hu : unstructured shots = true) by reflexivity.
  split; [exact Hu|].
  destruct (fast_slow_unstructured shots py0 Hu) as (Hf & Hs & _).
  split; [exact Hf | exact Hs].
Defined.

(** ** Construction and caching of the views *)

Ltac file_fields self :=
  destruct self; unfold gather, iline, xline, depth_slice, mbind,
    unstructured, ilines, xlines, offsets, trace in *; cbn in *.

Ltac cached_cases Hb :=
  let Hn := fresh "Hn" in
  let Hs := fresh "Hs" in
  split; [intros Hn; rewrite Hn in Hb | intros [? Hs]; rewrite Hs in Hb];
  tauto.

Lemma iline_cached (self : SegyFile) (py : Runtime) l self1 py1 :
  iline self py = Ok (l, self1, py1) ->
  iline self1 py1 = Ok (l, self1, py1)
  /\ _iline self1 = Some l
  /\ match _iline self with
     | Some l0 => l = l0 /\ self1 = self /\ py1 = py
     | None => line_oid l = next_oid py /\ py1 = alloc py
     end.
Proof.
  file_fields self. destruct _ilines0; [|done].
  destruct _iline0; intros; simplify_eq; cbn; done.
Qed.

Lemma xline_cached (self : SegyFile) (py : Runtime) l self1 py1 :
  xline self py = Ok (l, self1, py1) ->
  xline self1 py1 = Ok (l, self1, py1)
  /\ _xline self1 = Some l
  /\ match _xline self with
     | Some l0 => l = l0 /\ self1 = self /\ py1 = py
     | None => line_oid l = next_oid py /\ py1 = alloc py
     end.
Proof.
  file_fields self. destruct _ilines0; [|done].
  destruct _xline0; intros; simplify_eq; cbn; done.
Qed.

Lemma depth_slice_cached (self : SegyFile) (py : Runtime) d self1 py1 :
  depth_slice self py = Ok (d, self1, py1) ->
  depth_slice self1 py1 = Ok (d, self1, py1)
  /\ match depth self with
     | Some d0 => d = d0 /\ self1 = self /\ py1 = py
     | None => depth_oid d = next_oid py /\ py1 = alloc py
     end.
Proof.
  file_fields self. destruct _ilines0; [|done].
  destruct depth0; intros; simplify_eq; cbn; done.
Qed.

Lemma gather_cached (self : SegyFile) (py : Runtime) g self1 py1 :
  gather self py = Ok (g, self1, py1) ->
  gather self1 py1 = Ok (g, self1, py1)
  /\ match _gather self with
     | Some g0 => g = g0 /\ self1 = self /\ py1 = py
     | None =>
         iline self1 py1 = Ok (gather_iline g, self1, py1)
         /\ xline self1 py1 = Ok (gather_xline g, self1, py1)
         /\ gather_trace g = trace self
     end.
Proof.
  file_fields self. destruct _ilines0; [|done].
  destruct _gather0; [intros; simplify_eq; cbn; done|].
  destruct _iline0, _xline0; cbn; intros; simplify_eq; cbn; done.
Qed.

(** C4, as stated, fails for [text]: two accesses on the same open file
    return two different objects. *)
Lemma text_not_cached_counterexample :
  exists t1 s1 p1 t2 s2 p2,
    text survey survey_py = Ok (t1, s1, p1)
    /\ text s1 p1 = Ok (t2, s2, p2)
    /\ text_oid t1 <> text_oid t2.
Proof. do 6 eexists. repeat split; try reflexivity. cbn. lia. Qed.

(** C4, amended.  The accessors [iline], [xline], [gather] and [depth_slice]
    construct their view on the first access and cache it: a repeated access
    returns the identical object, changes nothing and constructs nothing, and
    the lines a newly built gather holds are the file's cached line handles,
    so there is one [Line] per axis per file.  [trace] and [header] are
    constructed once, in [__init__], and every access returns that object.
    [text] is not cached: every access constructs a new [TextHeader]. *)
Theorem view_caching :
  (forall self py l self1 py1,
      iline self py = Ok (l, self1, py1) ->
      iline self1 py1 = Ok (l, self1, py1)
      /\ (_iline self = None -> line_oid l = next_oid py /\ py1 = alloc py)
      /\ (is_Some (_iline self) -> self1 = self /\ py1 = py))
  /\ (forall self py l self1 py1,
      xline self py = Ok (l, self1, py1) ->
      xline self1 py1 = Ok (l, self1, py1)
      /\ (_xline self = None -> line_oid l = next_oid py /\ py1 = alloc py)
      /\ (is_Some (_xline self) -> self1 = self /\ py1 = py))
  /\ (forall self py d self1 py1,
      depth_slice self py = Ok (d, self1, py1) ->
      depth_slice self1 py1 = Ok (d, self1, py1)
      /\ (depth self = None -> depth_oid d = next_oid py /\ py1 = alloc py)
      /\ (is_Some (depth self) -> self1 = self /\ py1 = py))
  /\ (forall self py g self1 py1,
      gather self py = Ok (g, self1, py1) ->
      gather self1 py1 = Ok (g, self1, py1)
      /\ (_gather self = None ->
          iline self1 py1 = Ok (gather_iline g, self1, py1)
          /\ xline self1 py1 = Ok (gather_xline g, self1, py1))
      /\ (is_Some (_gather self) -> self1 = self /\ py1 = py))
  /\ (forall filename mode il xl fd py,
      let f := (SegyFile_init filename mode il xl fd py).1 in
      let py' := (SegyFile_init filename mode il xl fd py).2 in
      trace_oid (trace f) = next_oid py
      /\ header_oid (header f) = S (next_oid py)
      /\ next_oid py' = S (S (next_oid py))
      /\ _iline f = None /\ _xline f = None /\ _gather f = None
      /\ depth f = None)
  /\ (forall self py,
      exists t, text self py = Ok (t, self, alloc py)
                /\ text_oid t = next_oid py /\ outer t = self).
Proof.
  repeat apply conj.
  - intros self py l self1 py1 H.
    destruct (iline_cached _ _ _ _ _ H) as (Ha & _ & Hb).
    split; [done|]. cached_cases Hb.
  - intros self py l self1 py1 H.
    destruct (xline_cached _ _ _ _ _ H) as (Ha & _ & Hb).
    split; [done|]. cached_cases Hb.
  - intros self py d self1 py1 H.
    destruct (depth_slice_cached _ _ _ _ _ H) as (Ha & Hb).
    split; [done|]. cached_cases Hb.
  - intros self py g self1 py1 H.
    destruct (gather_cached _ _ _ _ _ H) as (Ha & Hb).
    split; [done|]. cached_cases Hb.
  - intros filename mode il xl fd py f py'. subst f py'.
    unfold SegyFile_init.
    destruct (dtype_of_format (m_format (metrics fd))); cbn; done.
  - intros self py. eexists. split; [reflexivity|]. done.
Qed.

Lemma view_caching_witness :
  let l := mk_Line 2%nat (Some [1; 2]) (Some 3) (Some 1) (Some [1]) "inline" in
  let self1 := set__iline survey (Some l) in
  let py1 := alloc survey_py in
  iline survey survey_py = Ok (l, self1, py1)
  /\ iline self1 py1 = Ok (l, self1, py1)
  /\ line_oid l = next_oid survey_py.
Proof.
  intros l self1 py1.
  assert (E : iline survey survey_py = Ok (l, self1, py1)) by reflexivity.
  destruct view_caching as (H & _).
  destruct (H _ _ _ _ _ E) as (H1 & H2 & _).
  split; [exact E|]. split; [exact H1|]. apply H2. reflexivity.
Defined.

(** ** Text headers *)

Lemma open_consistent filename mode il xl fd r py :
  consistent (open filename mode il xl fd r py).1.
Proof.
  unfold open, SegyFile_init.
  destruct (dtype_of_format (m_format (metrics fd))), r; split; reflexivity.
Qed.

Lemma setitem_str_consistent (self : TextHeader) (index : Z) (val : string)
    (f' : SegyFile) :
  consistent (outer self) ->
  TextHeader_setitem_str self index val = Ok f' -> consistent f'.
Proof.
  intros [Ht He]. unfold TextHeader_setitem_str, puttext.
  destruct (negb _); [done|]. destruct (index <? 0); [done|].
  destruct (fd_text (xfd (outer self)) !! Z.to_nat index); [|done].
  cbn. intros [= <-]. destruct (outer self); cbn in *.
  split; cbn; [done|]. by rewrite length_insert.
Qed.

Lemma flat_setters_consistent (self : SegyFile) (py : Runtime) :
  consistent self ->
  (forall val self' py',
      trace_setter val self py = Ok (tt, self', py') -> consistent self')
  /\ (forall val self' py',
      header_setter val self py = Ok (tt, self', py') -> consistent self').
Proof.
  intros [Ht He].
  assert (Hkeep : forall (V X : Type) (I : MacroView V X) (v : V),
             (forall j x fd,
                 length (fd_records (view_put v j x fd)) = length (fd_records fd)
                 /\ fd_text (view_put v j x fd) = fd_text fd) ->
             forall todo pos src fd,
               length (fd_records (assign_from v pos todo src fd))
               = length (fd_records fd)
               /\ fd_text (assign_from v pos todo src fd) = fd_text fd).
  { intros V X I v Hput. induction todo as [|todo IH]; intros pos [|x src] fd;
      try done.
    cbn. destruct (IH (S pos) src (view_put v pos x fd)) as [-> ->].
    apply Hput. }
  split; intros val self' py' [= <- <-];
    destruct self; cbn in *;
    (edestruct Hkeep as [Hl Htx];
     [|split; cbn; [rewrite Hl; exact Ht | rewrite Htx; exact He]]);
    intros j x fd; cbn; by rewrite length_alter.
Qed.

Lemma in_slot_range (f : SegyFile) (index : Z) :
  consistent f -> 0 <= index <= ext_headers f ->
  is_Some (fd_text (xfd f) !! Z.to_nat index).
Proof.
  intros [_ He] Hi. apply lookup_lt_is_Some.
  rewrite He in Hi. cbn in Hi. lia.
Qed.

Lemma slot_check_out (f : SegyFile) (index : Z) :
  ~ (0 <= index <= ext_headers f) ->
  negb ((0 <=? index) && (index <=? ext_headers f)) = true.
Proof.
  intros H. destruct (0 <=? index) eqn:E1, (index <=? ext_headers f) eqn:E2;
    try reflexivity. exfalso. apply H. lia.
Qed.

Lemma slot_check_in (f : SegyFile) (index : Z) :
  0 <= index <= ext_headers f ->
  negb ((0 <=? index) && (index <=? ext_headers f)) = false.
Proof.
  intros H. replace (0 <=? index) with true by (symmetry; lia).
  replace (index <=? ext_headers f) with true by (symmetry; lia). done.
Qed.

Lemma getitem_zero (g : TextHeader) :
  consistent (outer g) ->
  match fd_text (xfd (outer g)) !! 0%nat with
  | Some s => TextHeader_getitem g 0 = Ok s
  | None => TextHeader_getitem g 0 = Raise (IndexError (text_not_in_file 0))
  end.
Proof.
  intros [_ He]. unfold TextHeader_getitem, gettext. rewrite He. cbn.
  destruct (fd_text (xfd (outer g))) as [|s l]; [reflexivity|].
  cbn [length]. 
  rewrite (proj2 (Z.leb_le 0 _)) by lia. reflexivity.
Qed.

(** C7.  Reading and writing a text header by slot index is checked against
    the slot range [0..ext_headers].  For an index outside the range,
    [text[index]] and [text[index] = value] raise [IndexError], whether the
    value is a text or a [TextHeader] of an opened file.  For an index inside
    the range they are the handle's [gettext] and [puttext] at that index, and
    on an opened file these succeed. *)
Theorem text_header_bounds (self : TextHeader) (index : Z) :
  (~ (0 <= index <= ext_headers (outer self)) ->
     TextHeader_getitem self index = Raise (IndexError (text_not_in_file index))
     /\ (forall s, TextHeader_setitem self index (VStr s)
                   = Raise (IndexError (text_not_in_file index)))
     /\ (forall g, consistent (outer g) ->
                   raises (TextHeader_setitem self index (VTextHeader g))
                          KIndexError))
  /\ (0 <= index <= ext_headers (outer self) ->
     TextHeader_getitem self index = gettext (xfd (outer self)) index
     /\ (forall s, TextHeader_setitem self index (VStr s)
                   = rbind (puttext (xfd (outer self)) index s)
                           (fun fd => Ok (set_xfd (outer self) fd)))
     /\ (consistent (outer self) ->
         (exists s, TextHeader_getitem self index = Ok s)
         /\ (forall s, exists f',
               TextHeader_setitem self index (VStr s) = Ok f'))).
Proof.
  split.
  - intros Hout. pose proof (slot_check_out _ _ Hout) as Hc.
    unfold TextHeader_setitem, TextHeader_setitem_str, TextHeader_getitem.
    rewrite Hc. repeat split; try done.
    intros g Hg. pose proof (getitem_zero g Hg) as H0.
    unfold TextHeader_getitem in H0.
    destruct (fd_text (xfd (outer g)) !! 0%nat); rewrite H0; cbn; done.
  - intros Hin. pose proof (slot_check_in _ _ Hin) as Hc.
    unfold TextHeader_setitem, TextHeader_setitem_str, TextHeader_getitem.
    rewrite Hc. split; [done|]. split; [done|]. intros Hcons. split.
    + destruct (in_slot_range _ _ Hcons Hin) as [s Hs].
      exists s. unfold gettext. rewrite Hs.
      by replace (index <? 0) with false by (symmetry; lia).
    + intros s. destruct (in_slot_range _ _ Hcons Hin) as [s0 Hs].
      unfold puttext. rewrite Hs.
      replace (index <? 0) with false by (symmetry; lia).
      eexists. reflexivity.
Qed.

Lemma text_header_bounds_witness :
  let t := mk_TextHeader 7%nat survey in
  ~ (0 <= 2 <= ext_headers survey)
  /\ TextHeader_getitem t 2 = Raise (IndexError "Textual header 2 not in file")
  /\ TextHeader_getitem t 1 = gettext (xfd survey) 1.
Proof.
  intros t.
  assert (Hout : ~ (0 <= 2 <= ext_headers (outer t))) by (cbn; lia).
  assert (Hin : 0 <= 1 <= ext_headers (outer t)) by (cbn; lia).
  split; [exact Hout|].
  destruct (text_header_bounds t 2) as [H2 _].
  destruct (text_header_bounds t 1) as [_ H1].
  split; [exact (proj1 (H2 Hout)) | exact (proj1 (H1 Hin))].
Defined.

(** C10.  Assigning a [TextHeader] to a text-header slot copies slot 0 of the
    source: for an in-bounds index [i] and a [TextHeader] [g] whose slot 0
    holds [s], [text[i] = g] is [text[i] = g[0]]; it writes [s] into slot [i]
    and leaves the other slots of the destination as they were, whatever
    further slots the source has. *)
Theorem text_header_copy (self g : TextHeader) (i : Z) (s : string) :
  consistent (outer self) -> consistent (outer g) ->
  0 <= i <= ext_headers (outer self) ->
  fd_text (xfd (outer g)) !! 0%nat = Some s ->
  TextHeader_getitem g 0 = Ok s
  /\ exists f',
       TextHeader_setitem self i (VTextHeader g) = Ok f'
       /\ TextHeader_setitem self i (VStr s) = Ok f'
       /\ fd_text (xfd f') = <[Z.to_nat i := s]> (fd_text (xfd (outer self)))
       /\ fd_text (xfd f') !! Z.to_nat i = Some s
       /\ fd_records (xfd f') = fd_records (xfd (outer self)).
Proof.
  intros Hself Hg Hin Hs.
  pose proof (getitem_zero g Hg) as H0. rewrite Hs in H0.
  split; [exact H0|].
  destruct (in_slot_range _ _ Hself Hin) as [s0 Hs0].
  unfold TextHeader_setitem. rewrite H0. cbn [rbind].
  unfold TextHeader_setitem_str, puttext.
  rewrite (slot_check_in _ _ Hin), Hs0.
  replace (i <? 0) with false by (symmetry; lia). cbn [rbind].
  eexists. split; [reflexivity|]. split; [reflexivity|].
  destruct (outer self); cbn in *. repeat split.
  apply list_lookup_insert_eq. by eapply lookup_lt_Some.
Qed.

Lemma text_header_copy_witness :
  let self := mk_TextHeader 7%nat survey in
  let g := mk_TextHeader 8%nat shots in
  exists f',
    TextHeader_setitem self 1 (VTextHeader g) = Ok f'
    /\ fd_text (xfd f') = ["C 1 primary"; "C 1 primary"].
Proof.
  intros self g.
  destruct (text_header_copy self g 1 "C 1 primary") as (_ & f' & H1 & _ & H2 & _).
  - apply open_consistent.
  - apply open_consistent.
  - cbn. lia.
  - reflexivity.
  - exists f'. split; [exact H1 | exact H2].
Defined.

(** ** Field projection ([attributes]) *)


Lemma read_field_in_range (fd : segyiofd) (field i : Z) :
  0 <= i < Z.of_nat (length (fd_records fd)) ->
  exists v, read_field fd i field = Ok v.
Proof.
  intros Hi. unfold read_field.
  rewrite (proj2 (Z.ltb_ge _ _)) by lia.
  destruct (fd_records fd !! Z.to_nat i) as [r|] eqn:Hr; [eauto|].
  apply lookup_ge_None in Hr. lia.
Qed.

Lemma read_all_in_range (fd : segyiofd) (field : Z) (xs : list Z) :
  Forall (fun i => 0 <= i < Z.of_nat (length (fd_records fd))) xs ->
  exists vs, Forall2 (fun i v => read_field fd i field = Ok v) xs vs.
Proof.
  induction 1 as [|x xs Hx _ [vs IH]]; [by exists []|].
  destruct (read_field_in_range fd field x Hx) as [v Hv].
  exists (v :: vs). by constructor.
Qed.

(** Filling a buffer: the cells from [pos] on receive the values read, in the
    order of the indices; the cells before [pos] and after the last index are
    kept. *)
Lemma field_fill_spec (fd : segyiofd) (field : Z) (indices : list Z)
    (vs : list Z) (pos : nat) (buf : list Z) :
  Forall2 (fun i v => read_field fd i field = Ok v) indices vs ->
  (pos + length indices <= length buf)%nat ->
  field_fill fd field indices pos buf
  = Ok (take pos buf ++ vs ++ drop (pos + length indices) buf).
Proof.
  intros H. revert pos buf.
  induction H as [|i v indices vs Hv _ IH]; intros pos buf Hlen.
  - cbn. by rewrite Nat.add_0_r, take_drop.
  - cbn [field_fill length] in *. rewrite Hv. cbn [rbind].
    rewrite IH by (rewrite length_insert; lia). f_equal.
    rewrite (take_S_r _ _ v) by (apply list_lookup_insert_eq; lia).
    rewrite take_insert_ge by lia.
    rewrite drop_insert_lt by lia.
    rewrite <- app_assoc. cbn. by rewrite Nat.add_succ_r.
Qed.

Lemma field_fill_exact (fd : segyiofd) (field : Z) (indices vs : list Z) :
  Forall2 (fun i v => read_field fd i field = Ok v) indices vs ->
  field_fill fd field indices 0 (np_empty (length indices)) = Ok vs.
Proof.
  intros H. rewrite (field_fill_spec _ _ _ vs) by (done || (unfold np_empty; rewrite length_replicate; lia)).
  cbn. rewrite drop_ge by (unfold np_empty; rewrite length_replicate; lia).
  by rewrite app_nil_r.
Qed.

(** *** Slices *)

Lemma range_len_nonneg (start stop step : Z) :
  step <> 0 -> 0 <= range_len start stop step.
Proof.
  intros Hs. unfold range_len.
  destruct (0 <? step) eqn:E.
  - apply Z.ltb_lt in E. destruct (start <? stop) eqn:E2; [|lia].
    apply Z.ltb_lt in E2.
    pose proof (Z.div_pos (stop - start - 1) step). lia.
  - apply Z.ltb_ge in E. destruct (stop <? start) eqn:E2; [|lia].
    apply Z.ltb_lt in E2.
    pose proof (Z.div_pos (start - stop - 1) (- step)). lia.
Qed.

Lemma length_py_range (start stop step : Z) :
  length (py_range start stop step) = Z.to_nat (range_len start stop step).
Proof. unfold py_range. by rewrite length_fmap, length_seqZ. Qed.

(** What [slice.indices] returns is a range inside [0, len). *)
Lemma slice_indices_in_range (a b c : option Z) (len : Z)
    (start stop step : Z) :
  0 <= len ->
  slice_indices a b c len = Ok (start, stop, step) ->
  step <> 0
  /\ Forall (fun i => 0 <= i < len) (py_range start stop step).
Proof.
  intros Hlen H. unfold slice_indices in H.
  destruct (default 1 c =? 0) eqn:E0; [discriminate|].
  apply Z.eqb_neq in E0. injection H as Hstart Hstop Hstep.
  rewrite Hstep in *. split; [done|].
  unfold py_range. apply Forall_fmap, Forall_forall. intros k Hk.
  apply elem_of_seqZ in Hk. cbn. unfold range_len in Hk.
  destruct (0 <? step) eqn:E.
  - apply Z.ltb_lt in E. rewrite (proj2 (Z.ltb_ge step 0)) in * by lia.
    assert (0 <= start <= len) as Hs.
    { subst start. destruct a as [s|]; [|lia].
      destruct (s <? 0) eqn:Es; [apply Z.ltb_lt in Es|apply Z.ltb_ge in Es]; lia. }
    assert (0 <= stop <= len) as Ht.
    { subst stop. destruct b as [s|]; [|lia].
      destruct (s <? 0) eqn:Es; [apply Z.ltb_lt in Es|apply Z.ltb_ge in Es]; lia. }
    destruct (start <? stop) eqn:E2; [apply Z.ltb_lt in E2|lia].
    pose proof (Z.mul_div_le (stop - start - 1) step E). nia.
  - apply Z.ltb_ge in E. assert (step < 0) as Hneg by lia.
    rewrite (proj2 (Z.ltb_lt step 0)) in * by lia.
    assert (-1 <= start <= len - 1) as Hs.
    { subst start. destruct a as [s|]; [|lia].
      destruct (s <? 0) eqn:Es; [apply Z.ltb_lt in Es|apply Z.ltb_ge in Es]; lia. }
    assert (-1 <= stop <= len - 1) as Ht.
    { subst stop. destruct b as [s|]; [|lia].
      destruct (s <? 0) eqn:Es; [apply Z.ltb_lt in Es|apply Z.ltb_ge in Es]; lia. }
    destruct (stop <? start) eqn:E2; [apply Z.ltb_lt in E2|lia].
    pose proof (Z.mul_div_le (start - stop - 1) (- step) ltac:(lia)). nia.
Qed.

Lemma attr_getitem_slice (self : SegyFile) (field : Z) (a b c : option Z)
    (start stop step : Z) :
  consistent self ->
  slice_indices a b c (tracecount self) = Ok (start, stop, step) ->
  exists vs,
    attr_getitem self field (Slice a b c) = Ok vs
    /\ Forall2 (fun i v => read_field (xfd self) i field = Ok v)
               (py_range start stop step) vs.
Proof.
  intros [Ht _] Hs.
  destruct (slice_indices_in_range a b c (tracecount self) start stop step)
    as [Hstep Hin]; [rewrite Ht; cbn; lia | done |].
  rewrite Ht in Hin. cbn [m_tracecount metrics] in Hin.
  destruct (read_all_in_range (xfd self) field _ Hin) as [vs Hvs].
  exists vs. split; [|done].
  unfold attr_getitem, attr_getitem_range. rewrite Hs. cbn [rbind].
  unfold field_forall.
  rewrite <- length_py_range. by apply field_fill_exact.
Qed.

Lemma slice_indices_ok (a b c : option Z) (len : Z) :
  c <> Some 0 -> exists r, slice_indices a b c len = Ok r.
Proof.
  intros Hc. unfold slice_indices.
  destruct (default 1 c =? 0) eqn:E; [|eauto].
  apply Z.eqb_eq in E. destruct c as [s|]; cbn in E; [|lia]. by subst s.
Qed.


Lemma survey_consistent : consistent survey.
Proof. apply open_consistent. Qed.


(** *** Integer subscripts *)

Lemma py_range_one (start : Z) : py_range start (start + 1) 1 = [start].
Proof.
  unfold py_range, range_len. cbn [Z.ltb Z.compare].
  rewrite (proj2 (Z.ltb_lt start (start + 1))) by lia.
  replace (start + 1 - start - 1) with 0 by lia.
  change (seqZ 0 (0 / 1 + 1)) with [0]. cbn. f_equal. lia.
Qed.

Lemma py_range_empty (start stop : Z) :
  stop <= start -> py_range start stop 1 = [].
Proof.
  intros H. unfold py_range, range_len. cbn [Z.ltb Z.compare].
  by rewrite (proj2 (Z.ltb_ge start stop)) by lia.
Qed.

(** The range that [slice(i, i + 1, 1).indices(len)] selects. *)
Lemma index_slice_range (i len : Z) :
  0 <= len ->
  exists start stop,
    slice_indices (Some i) (Some (i + 1)) (Some 1) len = Ok (start, stop, 1)
    /\ py_range start stop 1
       = if (0 <=? i) && (i <? len) then [i]
         else if (- len <=? i) && (i <=? -2) then [len + i]
         else [].
Proof.
  intros Hlen.
  exists (if i <? 0 then Z.max (i + len) 0 else Z.min i len),
         (if i + 1 <? 0 then Z.max (i + 1 + len) 0 else Z.min (i + 1) len).
  split; [reflexivity|].
  destruct (i <? 0) eqn:E1; [apply Z.ltb_lt in E1 | apply Z.ltb_ge in E1].
  - rewrite (proj2 (Z.leb_gt 0 i)) by lia. cbn [andb].
    destruct (i + 1 <? 0) eqn:E2; [apply Z.ltb_lt in E2 | apply Z.ltb_ge in E2].
    + rewrite (proj2 (Z.leb_le i (-2))) by lia. rewrite andb_true_r.
      destruct (- len <=? i) eqn:E3; [apply Z.leb_le in E3 | apply Z.leb_gt in E3].
      * replace (Z.max (i + 1 + len) 0) with (Z.max (i + len) 0 + 1) by lia.
        rewrite py_range_one. f_equal. lia.
      * apply py_range_empty. lia.
    + rewrite (proj2 (Z.leb_gt i (-2))) by lia. rewrite andb_false_r.
      apply py_range_empty. lia.
  - rewrite (proj2 (Z.leb_le 0 i)) by lia. cbn [andb].
    rewrite (proj2 (Z.ltb_ge (i + 1) 0)) by lia.
    destruct (i <? len) eqn:E2; [apply Z.ltb_lt in E2 | apply Z.ltb_ge in E2].
    + replace (Z.min (i + 1) len) with (Z.min i len + 1) by lia.
      rewrite py_range_one. f_equal. lia.
    + rewrite (proj2 (Z.leb_gt i (-2))) by lia. rewrite andb_false_r.
      apply py_range_empty. lia.
Qed.

Lemma attr_getitem_index (self : SegyFile) (field i : Z) :
  attr_getitem self field (Index i)
  = attr_getitem self field (Slice (Some i) (Some (i + 1)) (Some 1)).
Proof. reflexivity. Qed.

(** C9, as stated, fails: a negative integer that is not -1 selects a trace
    counted from the end, here the trace before the last of six. *)
Lemma attributes_negative_index_counterexample :
  attributes survey 193 (Index (-2)) = Ok [20]
  /\ attributes survey 193 (Index (-2)) <> Ok [].
Proof. split; [reflexivity | discriminate]. Qed.

(** C9, amended.  For every integer subscript [i], [attributes(field)[i]] is
    [attributes(field)[slice(i, i + 1, 1)]] resolved by Python's slice
    semantics over [tracecount].  It is the one-element array of the field of
    trace [i] when [0 <= i < tracecount], the one-element array of the field
    of trace [tracecount + i] when [-tracecount <= i <= -2], and the empty
    array, never an error and never the last trace, when [i = -1], when
    [i < -tracecount] and when [i >= tracecount]. *)
Theorem attributes_scalar (self : SegyFile) (field i : Z) :
  consistent self ->
  attributes self field (Index i)
  = attributes self field (Slice (Some i) (Some (i + 1)) (Some 1))
  /\ (0 <= i < tracecount self ->
      exists v, read_field (xfd self) i field = Ok v
                /\ attributes self field (Index i) = Ok [v])
  /\ (- tracecount self <= i <= -2 ->
      exists v, read_field (xfd self) (tracecount self + i) field = Ok v
                /\ attributes self field (Index i) = Ok [v])
  /\ (i = -1 \/ i < - tracecount self \/ tracecount self <= i ->
      attributes self field (Index i) = Ok []).
Proof.
  intros Hc. split; [reflexivity|].
  assert (Hlen : 0 <= tracecount self).
  { destruct Hc as [Ht _]. rewrite Ht. cbn. lia. }
  destruct (index_slice_range i (tracecount self) Hlen)
    as (start & stop & Hs & Hr).
  destruct (attr_getitem_slice self field _ _ _ _ _ _ Hc Hs)
    as (vs & Hvs & Hall).
  unfold attributes. rewrite attr_getitem_index, Hvs. rewrite Hr in Hall.
  clear Hs Hr Hvs. repeat split.
  - intros Hi.
    rewrite (proj2 (Z.leb_le 0 i)), (proj2 (Z.ltb_lt i _)) in Hall by lia.
    cbn [andb] in Hall.
    apply Forall2_cons_inv_l in Hall as (v & vs' & Hv & Hnil & ->).
    apply Forall2_nil_inv_l in Hnil as ->. eauto.
  - intros Hi.
    destruct ((0 <=? i) && (i <? tracecount self)) eqn:E.
    { apply andb_true_iff in E as [E _]. apply Z.leb_le in E. lia. }
    rewrite (proj2 (Z.leb_le _ i)), (proj2 (Z.leb_le i _)) in Hall by lia.
    cbn [andb] in Hall.
    apply Forall2_cons_inv_l in Hall as (v & vs' & Hv & Hnil & ->).
    apply Forall2_nil_inv_l in Hnil as ->. eauto.
  - intros Hi.
    destruct ((0 <=? i) && (i <? tracecount self)) eqn:E.
    { apply andb_true_iff in E as [E1 E2].
      apply Z.leb_le in E1. apply Z.ltb_lt in E2. lia. }
    destruct ((- tracecount self <=? i) && (i <=? -2)) eqn:E'.
    { apply andb_true_iff in E' as [E1 E2].
      apply Z.leb_le in E1. apply Z.leb_le in E2. lia. }
    by apply Forall2_nil_inv_l in Hall as ->.
Qed.

Lemma attributes_scalar_witness :
  (exists v, read_field (xfd survey) 4 193 = Ok v
             /\ attributes survey 193 (Index 4) = Ok [v])
  /\ (exists v, read_field (xfd survey) (tracecount survey + -2) 193 = Ok v
                /\ attributes survey 193 (Index (-2)) = Ok [v])
  /\ attributes survey 193 (Index (-1)) = Ok []
  /\ attributes survey 193 (Index 6) = Ok [].
Proof.
  split; [|split; [|split]].
  - apply (attributes_scalar survey 193 4 survey_consistent). cbn. lia.
  - apply (attributes_scalar survey 193 (-2) survey_consistent). cbn. lia.
  - apply (attributes_scalar survey 193 (-1) survey_consistent). lia.
  - apply (attributes_scalar survey 193 6 survey_consistent). cbn. lia.
Defined.

(** ** Macro assignment *)

Global Instance Trace_exact : ExactView Trace (list Z).
Proof.
  constructor. intros v j x fd [y Hy]. cbn in *.
  destruct (fd_records fd !! j) as [r|] eqn:Hr; [|done].
  rewrite list_lookup_alter. case_decide; [|done]. by rewrite Hr.
Qed.

Global Instance Header_exact : ExactView Header (Z -> Z).
Proof.
  constructor. intros v j x fd [y Hy]. cbn in *.
  destruct (fd_records fd !! j) as [r|] eqn:Hr; [|done].
  rewrite list_lookup_alter. case_decide; [|done]. by rewrite Hr.
Qed.

Section Protocol.
Context {V X : Type} `{!MacroView V X}.
Implicit Types (v : V) (src : list X) (fd : segyiofd).

Lemma assign_from_writes v pos todo src fd :
  assign_from v pos todo src fd = apply_writes v (writes pos todo src) fd.
Proof.
  revert pos src fd. induction todo as [|todo IH]; intros pos [|x src] fd;
    try reflexivity.
  cbn. apply IH.
Qed.

Lemma length_writes pos todo src :
  length (writes pos todo src) = Nat.min todo (length src).
Proof. unfold writes. by rewrite length_zip, length_seq. Qed.

Lemma writes_lookup pos todo src k :
  writes pos todo src !! k
  = if decide (k < todo)%nat then (fun x => ((pos + k)%nat, x)) <$> src !! k
    else None.
Proof.
  unfold writes. revert pos src k.
  induction todo as [|todo IH]; intros pos src k.
  { case_decide; [lia | reflexivity]. }
  destruct src as [|x src]; [case_decide; reflexivity|].
  destruct k as [|k]; cbn.
  - by rewrite Nat.add_0_r.
  - rewrite IH. rewrite Nat.add_succ_r.
    repeat case_decide; try lia; reflexivity.
Qed.

Lemma assign_from_take v pos todo src fd :
  assign_from v pos todo (take todo src) fd = assign_from v pos todo src fd.
Proof.
  revert pos src fd. induction todo as [|todo IH]; intros pos [|x src] fd;
    try reflexivity.
  cbn. apply IH.
Qed.

Lemma assign_from_frame v pos todo src fd j :
  (j < pos \/ pos + length src <= j \/ pos + todo <= j)%nat ->
  view_get v j (assign_from v pos todo src fd) = view_get v j fd.
Proof.
  revert pos src fd. induction todo as [|todo IH]; intros pos [|x src] fd Hj;
    try reflexivity.
  cbn in *. rewrite IH by lia. apply view_put_frame. lia.
Qed.

Lemma assign_from_written `{!ExactView V X} v pos todo src fd j x :
  src !! j = Some x -> (j < todo)%nat ->
  is_Some (view_get v (pos + j) fd) ->
  view_get v (pos + j) (assign_from v pos todo src fd) = Some x.
Proof.
  revert pos src fd j. induction todo as [|todo IH];
    intros pos [|y src] fd j Hx Hj Hs; try done; [lia|].
  destruct j as [|j]; cbn in *.
  - simplify_eq. rewrite Nat.add_0_r in *.
    rewrite assign_from_frame by lia. by apply view_put_get.
  - rewrite Nat.add_succ_r in *.
    apply (IH (S pos)); [done | lia |].
    rewrite view_put_frame by lia. done.
Qed.
End Protocol.

Lemma setitem_all_assigns {V X : Type} `{!MacroView V X}
    (accessor : M V) (setter : list X -> M unit) :
  (forall val self py,
      setter val self py
      = mbind accessor (fun v => setitem_all v val) self py) ->
  macro_assigns accessor setter.
Proof.
  intros Hset val self py.
  destruct (accessor self py) as [[[v self1] py1]|e] eqn:Hacc.
  2: { rewrite Hset. unfold mbind. by rewrite Hacc. }
  cbn zeta. rewrite !Hset. unfold mbind. rewrite Hacc. unfold setitem_all.
  rewrite assign_from_take, assign_from_writes.
  split; [done|]. split; [apply length_writes|]. split; [|split; [|done]].
  - intros k Hk. rewrite writes_lookup. case_decide; [|lia].
    destruct (lookup_lt_is_Some_2 val k) as [x Hx]; [lia|].
    exists x. by rewrite Hx.
  - intros j Hj. rewrite <- assign_from_writes.
    apply assign_from_frame. lia.
Qed.

Lemma xfd_set_xfd (f : SegyFile) (fd : segyiofd) : xfd (set_xfd f fd) = fd.
Proof. by destruct f. Qed.

(** C2.  Each macro-assignment setter ([trace], [header], [iline], [xline],
    [depth_slice]) performs the full-range assignment [view[:] = value] under
    the one shared protocol: the items of the source are consumed in order and
    written to positions 0, 1, ...; a source of [k < N] items stops the
    write without error and leaves positions [k..N) as they were; a source of
    more than [N] items writes its first [N] items, without error.  For the
    two flat views a written position then holds the item written.  (The line
    and depth setters evaluate their view accessor first, which is what fails
    on an unstructured file.) *)
Theorem macro_assignment :
  macro_assigns (property trace) trace_setter
  /\ macro_assigns (property header) header_setter
  /\ (forall (LineItem DepthItem : Type)
             (L : MacroView Line LineItem) (D : MacroView Depth DepthItem),
        macro_assigns iline iline_setter
        /\ macro_assigns xline xline_setter
        /\ macro_assigns depth_slice depth_slice_setter)
  /\ (forall val self py (j : nat) x,
        val !! j = Some x ->
        (j < view_len (trace self) self)%nat ->
        is_Some (view_get (trace self) j (xfd self)) ->
        exists self',
          trace_setter val self py = Ok (tt, self', py)
          /\ view_get (trace self) j (xfd self') = Some x)
  /\ (forall val self py (j : nat) x,
        val !! j = Some x ->
        (j < view_len (header self) self)%nat ->
        is_Some (view_get (header self) j (xfd self)) ->
        exists self',
          header_setter val self py = Ok (tt, self', py)
          /\ view_get (header self) j (xfd self') = Some x).
Proof.
  split; [|split; [|split; [|split]]].
  - by apply setitem_all_assigns.
  - by apply setitem_all_assigns.
  - intros LineItem DepthItem L D.
    repeat split; by apply setitem_all_assigns.
  - intros val self py j x Hx Hj Hs. eexists. split; [reflexivity|].
    rewrite xfd_set_xfd.
    by apply (assign_from_written (trace self) 0 _ val (xfd self) j x).
  - intros val self py j x Hx Hj Hs. eexists. split; [reflexivity|].
    rewrite xfd_set_xfd.
    by apply (assign_from_written (header self) 0 _ val (xfd self) j x).
Qed.

(** Two traces assigned to the six of the survey; a line assigned through
    the contiguous addressing; the line setter on an unstructured file. *)
Lemma macro_assignment_witness :
  let val := [[1; 2]; [3; 4]] in
  exists self',
    trace_setter val survey survey_py = Ok (tt, self', survey_py)
    /\ snd <$> fd_records (xfd self')
       = [[1; 2]; [3; 4]; [120; 121]; [200; 201]; [210; 211]; [220; 221]].
Proof.
  intros val.
  destruct macro_assignment as (H & _).
  specialize (H val survey survey_py). cbn zeta in H.
  change (property trace survey survey_py)
    with (Ok (trace survey, survey, survey_py)) in H. cbn iota beta in H.
  destruct H as (H & _).
  eexists. split; [exact H|]. reflexivity.
Defined.

Example iline_setter_examples :
  (exists l self' py',
     @iline_setter _ Line_view [[[7; 7]; [8; 8]]] survey survey_py
     = Ok (tt, self', py')
     /\ _iline self' = Some l
     /\ snd <$> fd_records (xfd self')
        = [[7; 7]; [8; 8]; [120; 121]; [200; 201]; [210; 211]; [220; 221]])
  /\ @iline_setter _ Line_view [[[7; 7]; [8; 8]]] shots survey_py
     = Raise (ValueError "File opened in unstructured mode.")
  /\ (exists self' py',
     @depth_slice_setter _ Depth_view [[1; 2; 3]; [4; 5; 6; 7; 8; 9; 10]; [0]]
       survey survey_py = Ok (tt, self', py')
     /\ snd <$> fd_records (xfd self')
        = [[1; 4]; [2; 5]; [3; 6]; [200; 7]; [210; 8]; [220; 9]]).
Proof.
  split; [|split].
  - eexists _, _, _. repeat split; reflexivity.
  - reflexivity.
  - eexists _, _. repeat split; reflexivity.
Qed.

(** * Further properties of segy.py *)

(** ** The file as [__init__] leaves it *)


(** ** What the accessors leave alone *)

Lemma same_data_refl (f : SegyFile) : same_data f f.
Proof. unfold same_data. repeat split. Qed.

Lemma same_data_trans (f g h : SegyFile) :
  same_data f g -> same_data g h -> same_data f h.
Proof. unfold same_data. intros Hfg Hgh. intuition congruence. Qed.

Lemma iline_frame self py l self1 py1 :
  iline self py = Ok (l, self1, py1) ->
  same_data self self1 /\ warnings py1 = warnings py
  /\ (next_oid py <= next_oid py1 <= S (next_oid py))%nat
  /\ _xline self1 = _xline self /\ _gather self1 = _gather self
  /\ depth self1 = depth self.
Proof.
  file_fields self. destruct _ilines0; [|done].
  destruct _iline0; intros; simplify_eq; cbn; unfold same_data; cbn;
    repeat split; lia.
Qed.

Lemma xline_frame self py l self1 py1 :
  xline self py = Ok (l, self1, py1) ->
  same_data self self1 /\ warnings py1 = warnings py
  /\ (next_oid py <= next_oid py1 <= S (next_oid py))%nat
  /\ _iline self1 = _iline self /\ _gather self1 = _gather self
  /\ depth self1 = depth self.
Proof.
  file_fields self. destruct _ilines0; [|done].
  destruct _xline0; intros; simplify_eq; cbn; unfold same_data; cbn;
    repeat split; lia.
Qed.

Lemma depth_slice_frame self py d self1 py1 :
  depth_slice self py = Ok (d, self1, py1) ->
  same_data self self1 /\ warnings py1 = warnings py
  /\ (next_oid py <= next_oid py1 <= S (next_oid py))%nat
  /\ _iline self1 = _iline self /\ _xline self1 = _xline self
  /\ _gather self1 = _gather self.
Proof.
  file_fields self. destruct _ilines0; [|done].
  destruct depth0; intros; simplify_eq; cbn; unfold same_data; cbn;
    repeat split; lia.
Qed.

Lemma gather_frame self py g self1 py1 :
  gather self py = Ok (g, self1, py1) ->
  same_data self self1 /\ warnings py1 = warnings py
  /\ (next_oid py <= next_oid py1 <= 3 + next_oid py)%nat
  /\ depth self1 = depth self.
Proof.
  file_fields self. destruct _ilines0; [|done].
  destruct _gather0; [intros; simplify_eq; cbn; unfold same_data; cbn;
                      repeat split; lia|].
  destruct _iline0, _xline0; cbn; intros; simplify_eq; cbn;
    unfold same_data; cbn; repeat split; lia.
Qed.

(** X2.  The view accessors [iline], [xline], [fast], [slow], [gather],
    [depth_slice] and [text] never touch the file's data: when one of them
    returns, the handle, the geometry, the counts, the format, the mode and
    the [trace] and [header] views are what they were, no warning was
    emitted, and at most three objects were constructed.  Only the cached
    views can differ. *)
Theorem accessors_keep_data (self : SegyFile) (py : Runtime) :
  (forall l self1 py1,
      iline self py = Ok (l, self1, py1) \/ xline self py = Ok (l, self1, py1)
      \/ fast self py = Ok (l, self1, py1) \/ slow self py = Ok (l, self1, py1) ->
      same_data self self1 /\ warnings py1 = warnings py
      /\ (next_oid py <= next_oid py1 <= S (next_oid py))%nat)
  /\ (forall g self1 py1,
      gather self py = Ok (g, self1, py1) ->
      same_data self self1 /\ warnings py1 = warnings py
      /\ (next_oid py <= next_oid py1 <= 3 + next_oid py)%nat)
  /\ (forall d self1 py1,
      depth_slice self py = Ok (d, self1, py1) ->
      same_data self self1 /\ warnings py1 = warnings py
      /\ (next_oid py <= next_oid py1 <= S (next_oid py))%nat)
  /\ (forall t self1 py1,
      text self py = Ok (t, self1, py1) ->
      self1 = self /\ warnings py1 = warnings py
      /\ next_oid py1 = S (next_oid py)).
Proof.
  repeat apply conj.
  - intros l self1 py1 H.
    assert (Hix : iline self py = Ok (l, self1, py1)
                  \/ xline self py = Ok (l, self1, py1)).
    { destruct H as [H|[H|[H|H]]]; auto; unfold fast, slow in H;
        destruct (sorting_eq (sorting self) INLINE_SORTING); auto;
        destruct (sorting_eq (sorting self) CROSSLINE_SORTING); auto;
        discriminate. }
    destruct Hix as [Hi|Hx].
    + destruct (iline_frame _ _ _ _ _ Hi) as (? & ? & ? & _). done.
    + destruct (xline_frame _ _ _ _ _ Hx) as (? & ? & ? & _). done.
  - intros g self1 py1 H.
    destruct (gather_frame _ _ _ _ _ H) as (? & ? & ? & _). done.
  - intros d self1 py1 H.
    destruct (depth_slice_frame _ _ _ _ _ H) as (? & ? & ? & _). done.
  - intros t self1 py1 H. unfold text in H. by simplify_eq.
Qed.

Lemma accessors_keep_data_witness :
  exists g self1 py1,
    gather survey survey_py = Ok (g, self1, py1)
    /\ same_data survey self1
    /\ (next_oid py1 <= 3 + next_oid survey_py)%nat.
Proof.
  destruct (gather survey survey_py) as [[[g self1] py1]|e] eqn:E.
  - exists g, self1, py1. split; [reflexivity|].
    destruct (accessors_keep_data survey survey_py) as (_ & H & _).
    destruct (H _ _ _ E) as (Hd & _ & Hn). split; [exact Hd | apply Hn].
  - vm_compute in E. discriminate E.
Defined.

(** ** The cached views describe the file *)

Ltac use_cached :=
  repeat match goal with
         | H : forall x : Line, @?P x |- _ =>
             let H' := fresh "Hl" in
             pose proof (H _ eq_refl) as H'; clear H
         | H : forall x : Gather, @?P x |- _ =>
             let H' := fresh "Hg" in
             pose proof (H _ eq_refl) as H'; clear H
         | H : _ /\ _ |- _ => destruct H
         end.

Ltac coherent_cases :=
  unfold cache_coherent, is_iline_of, is_xline_of, ilines, xlines, offsets,
    trace in *; cbn in *;
  use_cached; simplify_eq; cbn in *;
  repeat split; intros; simplify_eq; cbn in *; use_cached;
  eauto; try congruence; try done.

Lemma iline_coherent self py l self1 py1 :
  cache_coherent self -> iline self py = Ok (l, self1, py1) ->
  cache_coherent self1 /\ is_iline_of self l.
Proof.
  intros Hc. file_fields self. destruct _ilines0; [|done].
  destruct _iline0, _xline0, _gather0; intros; simplify_eq; coherent_cases.
Qed.

Lemma xline_coherent self py l self1 py1 :
  cache_coherent self -> xline self py = Ok (l, self1, py1) ->
  cache_coherent self1 /\ is_xline_of self l.
Proof.
  intros Hc. file_fields self. destruct _ilines0; [|done].
  destruct _iline0, _xline0, _gather0; intros; simplify_eq; coherent_cases.
Qed.

Lemma depth_slice_coherent self py d self1 py1 :
  cache_coherent self -> depth_slice self py = Ok (d, self1, py1) ->
  cache_coherent self1.
Proof.
  intros Hc. file_fields self. destruct _ilines0; [|done].
  destruct depth0; intros; simplify_eq; exact Hc.
Qed.

Lemma gather_coherent self py g self1 py1 :
  cache_coherent self -> gather self py = Ok (g, self1, py1) ->
  cache_coherent self1
  /\ is_iline_of self (gather_iline g) /\ is_xline_of self (gather_xline g)
  /\ gather_trace g = trace self /\ gather_offsets g = offsets self
  /\ _gather self1 = Some g
  /\ _iline self1 = Some (gather_iline g)
  /\ _xline self1 = Some (gather_xline g).
Proof.
  intros Hc. file_fields self. destruct _ilines0; [|done].
  destruct _iline0, _xline0, _gather0; cbn; intros; simplify_eq;
    coherent_cases.
Qed.

Lemma set_xfd_coherent (f : SegyFile) (fd : segyiofd) :
  cache_coherent f -> cache_coherent (set_xfd f fd).
Proof. destruct f. cbn. done. Qed.

(** X3.  The cached views always describe the file they are cached in.  A
    file is opened with no view cached; every accessor keeps the caches
    coherent, and so do the macro-assignment setters and a text-header
    assignment.  Hence the line an accessor returns is the handle of its axis
    built from the file's labels, length, stride and offsets, and the gather
    it returns holds the file's two cached line handles, its trace view and
    its offsets. *)
Theorem cache_coherence :
  (forall filename mode il xl fd r py,
      cache_coherent (open filename mode il xl fd r py).1)
  /\ (forall self py, cache_coherent self ->
      (forall l self1 py1, iline self py = Ok (l, self1, py1) ->
          cache_coherent self1 /\ is_iline_of self1 l)
      /\ (forall l self1 py1, xline self py = Ok (l, self1, py1) ->
          cache_coherent self1 /\ is_xline_of self1 l)
      /\ (forall d self1 py1, depth_slice self py = Ok (d, self1, py1) ->
          cache_coherent self1)
      /\ (forall g self1 py1, gather self py = Ok (g, self1, py1) ->
          cache_coherent self1
          /\ _iline self1 = Some (gather_iline g)
          /\ _xline self1 = Some (gather_xline g)
          /\ is_iline_of self1 (gather_iline g)
          /\ is_xline_of self1 (gather_xline g)
          /\ gather_trace g = trace self1
          /\ gather_offsets g = offsets self1)
      /\ (forall val self1 py1, trace_setter val self py = Ok (tt, self1, py1) ->
          cache_coherent self1)
      /\ (forall val self1 py1, header_setter val self py = Ok (tt, self1, py1) ->
          cache_coherent self1))
  /\ (forall (t : TextHeader) i val f',
      cache_coherent (outer t) -> TextHeader_setitem t i val = Ok f' ->
      cache_coherent f').
Proof.
  split; [|split].
  - intros. unfold open, SegyFile_init.
    destruct (dtype_of_format _), r; cbn; repeat split; done.
  - intros self py Hc. repeat apply conj.
    + intros l self1 py1 H.
      destruct (iline_coherent _ _ _ _ _ Hc H) as [Hc1 Hl].
      apply iline_cached in H as (_ & Hs & _). split; [done|]. by apply Hc1.
    + intros l self1 py1 H.
      destruct (xline_coherent _ _ _ _ _ Hc H) as [Hc1 Hl].
      apply xline_cached in H as (_ & Hs & _).
      split; [done|]. by apply Hc1.
    + intros d self1 py1 H. by eapply depth_slice_coherent.
    + intros g self1 py1 H.
      destruct (gather_coherent _ _ _ _ _ Hc H)
        as (Hc1 & _ & _ & _ & _ & Hg & Hi & Hx).
      pose proof Hc1 as (Hci & Hcx & Hcg).
      destruct (Hcg g Hg) as (_ & _ & Ht & Ho).
      split; [exact Hc1|]. split; [done|]. split; [done|].
      split; [by apply Hci|]. split; [by apply Hcx|]. done.
    + intros val self1 py1 [= <- <-]. by apply set_xfd_coherent.
    + intros val self1 py1 [= <- <-]. by apply set_xfd_coherent.
  - intros t i val f' Hc H.
    assert (Hstr : forall s, TextHeader_setitem_str t i s = Ok f' ->
                             cache_coherent f').
    { intros s Hs. unfold TextHeader_setitem_str in Hs.
      destruct (negb _); [done|].
      destruct (puttext (xfd (outer t)) i s); [|done].
      cbn in Hs. simplify_eq. by apply set_xfd_coherent. }
    destruct val as [s|g]; cbn in H; [by eapply Hstr|].
    destruct (TextHeader_getitem g 0); [|done]. by eapply Hstr.
Qed.

Lemma cache_coherence_witness :
  exists g self1 py1,
    gather survey survey_py = Ok (g, self1, py1)
    /\ cache_coherent self1
    /\ line_labels (gather_iline g) = Some [1; 2]
    /\ line_labels (gather_xline g) = Some [10; 20; 30].
Proof.
  destruct (gather survey survey_py) as [[[g self1] py1]|e] eqn:E.
  - exists g, self1, py1. split; [reflexivity|].
    destruct cache_coherence as (Hopen & Hacc & _).
    assert (Hc : cache_coherent survey) by apply Hopen.
    destruct (Hacc survey survey_py Hc) as (_ & _ & _ & Hg & _).
    destruct (Hg _ _ _ E) as (Hc1 & _ & _ & Hi & Hx & _).
    split; [exact Hc1|].
    destruct (gather_frame _ _ _ _ _ E) as (Hd & _).
    destruct Hi as (Hi & _). destruct Hx as (Hx & _).
    unfold same_data in Hd. unfold ilines, xlines in *.
    destruct Hd as (_ & _ & _ & _ & Hil & Hxl & _).
    rewrite Hi, Hx, Hil, Hxl. split; reflexivity.
  - vm_compute in E. discriminate E.
Defined.

(** ** The fast and the slow axis *)

Lemma iline_structured self py :
  unstructured self = false -> exists l self1 py1, iline self py = Ok (l, self1, py1).
Proof. unfold iline. intros ->. destruct (_iline self); eauto. Qed.

Lemma xline_structured self py :
  unstructured self = false -> exists l self1 py1, xline self py = Ok (l, self1, py1).
Proof. unfold xline. intros ->. destruct (_xline self); eauto. Qed.

Lemma same_data_geometry (f f' : SegyFile) :
  same_data f f' ->
  unstructured f' = unstructured f /\ sorting f' = sorting f
  /\ (forall l, is_iline_of f l <-> is_iline_of f' l)
  /\ (forall l, is_xline_of f l <-> is_xline_of f' l).
Proof.
  unfold same_data, unstructured, sorting, is_iline_of, is_xline_of, ilines,
    xlines, offsets.
  intros (_ & _ & _ & _ & -> & -> & -> & _ & -> & -> & -> & -> & -> & _).
  repeat split; tauto.
Qed.

Lemma sorting_eq_true (x : option TraceSortingFormat) (k : TraceSortingFormat) :
  sorting_eq x k = true <-> x = Some k.
Proof.
  unfold sorting_eq. destruct x as [s|]; [|split; discriminate].
  rewrite bool_decide_eq_true. split; congruence.
Qed.

(** X4.  On a structured file whose caches are coherent, [fast] and [slow]
    both succeed when the sorting is inline or crossline, and they are the
    two different axes: with inline sorting [fast] is the inline handle and
    [slow] the crossline handle, with crossline sorting the other way round.
    With any other sorting (unknown, or none) both raise the [RuntimeError]
    "Unknown sorting.", also on a structured file. *)
Theorem fast_slow_axes (self : SegyFile) (py : Runtime) :
  cache_coherent self -> unstructured self = false ->
  (sorting self = Some INLINE_SORTING \/ sorting self = Some CROSSLINE_SORTING ->
   exists lf self1 py1 ls self2 py2,
     fast self py = Ok (lf, self1, py1)
     /\ slow self1 py1 = Ok (ls, self2, py2)
     /\ line_direction lf <> line_direction ls
     /\ (sorting self = Some INLINE_SORTING ->
         is_iline_of self lf /\ is_xline_of self ls)
     /\ (sorting self = Some CROSSLINE_SORTING ->
         is_xline_of self lf /\ is_iline_of self ls))
  /\ (sorting self <> Some INLINE_SORTING ->
      sorting self <> Some CROSSLINE_SORTING ->
      fast self py = Raise (RuntimeError "Unknown sorting.")
      /\ slow self py = Raise (RuntimeError "Unknown sorting.")).
Proof.
  intros Hc Hu. split.
  - intros [Hs|Hs].
    + destruct (iline_structured self py Hu) as (lf & self1 & py1 & Hi).
      destruct (iline_coherent _ _ _ _ _ Hc Hi) as [Hc1 Hlf].
      destruct (iline_frame _ _ _ _ _ Hi) as (Hd & _).
      destruct (same_data_geometry _ _ Hd) as (Hu1 & Hs1 & _ & Hx1).
      rewrite Hu in Hu1.
      destruct (xline_structured self1 py1 Hu1) as (ls & self2 & py2 & Hx).
      destruct (xline_coherent _ _ _ _ _ Hc1 Hx) as [_ Hls].
      apply Hx1 in Hls.
      exists lf, self1, py1, ls, self2, py2. unfold fast, slow.
      rewrite Hs1, Hs. cbn. split; [done|]. split; [done|].
      destruct Hlf as (_ & _ & _ & _ & Hdf), Hls as (Hl1 & Hl2 & Hl3 & Hl4 & Hds).
      split; [rewrite Hdf, Hds; discriminate|].
      split; [|discriminate]. intros _. unfold is_iline_of, is_xline_of.
      destruct (iline_coherent _ _ _ _ _ Hc Hi) as [_ H']. done.
    + destruct (xline_structured self py Hu) as (lf & self1 & py1 & Hx).
      destruct (xline_coherent _ _ _ _ _ Hc Hx) as [Hc1 Hlf].
      destruct (xline_frame _ _ _ _ _ Hx) as (Hd & _).
      destruct (same_data_geometry _ _ Hd) as (Hu1 & Hs1 & Hi1 & _).
      rewrite Hu in Hu1.
      destruct (iline_structured self1 py1 Hu1) as (ls & self2 & py2 & Hi).
      destruct (iline_coherent _ _ _ _ _ Hc1 Hi) as [_ Hls].
      apply Hi1 in Hls.
      exists lf, self1, py1, ls, self2, py2. unfold fast, slow.
      rewrite Hs1, Hs. cbn. split; [done|]. split; [done|].
      split.
      { destruct Hlf as (_ & _ & _ & _ & ->), Hls as (_ & _ & _ & _ & ->).
        discriminate. }
      split; [discriminate|]. done.
  - intros H1 H2. unfold fast, slow.
    destruct (sorting_eq (sorting self) INLINE_SORTING) eqn:E1.
    { apply sorting_eq_true in E1. contradiction. }
    destruct (sorting_eq (sorting self) CROSSLINE_SORTING) eqn:E2.
    { apply sorting_eq_true in E2. contradiction. }
    done.
Qed.

Lemma fast_slow_axes_witness :
  exists lf self1 py1 ls self2 py2,
    fast survey survey_py = Ok (lf, self1, py1)
    /\ slow self1 py1 = Ok (ls, self2, py2)
    /\ line_direction lf <> line_direction ls.
Proof.
  assert (Hc : cache_coherent survey).
  { unfold cache_coherent. cbn. repeat split; discriminate. }
  assert (Hu : unstructured survey = false) by reflexivity.
  destruct (fast_slow_axes survey survey_py Hc Hu) as [H _].
  destruct H as (lf & s1 & p1 & ls & s2 & p2 & Hf & Hs & Hd & _).
  { left. reflexivity. }
  exists lf, s1, p1, ls, s2, p2. split; [exact Hf|]. split; [exact Hs | exact Hd].
Defined.

(** ** The first access to [gather] *)

(** X5.  The first access to [gather] also evaluates [self.iline] and
    [self.xline]: when it returns, both line handles and the gather are
    cached, the handles it holds are exactly the cached ones, and the objects
    constructed are the gather and those of the two lines that were not cached
    before: between one and three, with the gather constructed last. *)
Theorem gather_first_access (self : SegyFile) (py : Runtime) g self1 py1 :
  _gather self = None ->
  gather self py = Ok (g, self1, py1) ->
  _gather self1 = Some g
  /\ _iline self1 = Some (gather_iline g)
  /\ _xline self1 = Some (gather_xline g)
  /\ (forall l, _iline self = Some l -> gather_iline g = l)
  /\ (forall l, _xline self = Some l -> gather_xline g = l)
  /\ next_oid py1 = S (gather_oid g)
  /\ gather_oid g
     = (next_oid py + (if _iline self is Some _ then 0 else 1)
                    + (if _xline self is Some _ then 0 else 1))%nat
  /\ (_iline self = None -> line_oid (gather_iline g) = next_oid py)
  /\ (_xline self = None ->
      (next_oid py <= line_oid (gather_xline g) < gather_oid g)%nat
      /\ (_iline self = None ->
          line_oid (gather_xline g) = S (line_oid (gather_iline g)))).
Proof.
  file_fields self. intros ->. destruct _ilines0; [|done].
  destruct _iline0, _xline0; cbn; intros; simplify_eq; cbn;
    repeat split; intros; simplify_eq; cbn; try lia; try done.
Qed.

Lemma gather_first_access_witness :
  exists g self1 py1,
    gather survey survey_py = Ok (g, self1, py1)
    /\ _iline self1 = Some (gather_iline g)
    /\ _xline self1 = Some (gather_xline g)
    /\ gather_oid g = (next_oid survey_py + 1 + 1)%nat.
Proof.
  destruct (gather survey survey_py) as [[[g self1] py1]|e] eqn:E.
  - exists g, self1, py1. split; [reflexivity|].
    destruct (gather_first_access survey survey_py g self1 py1 eq_refl E)
      as (_ & Hi & Hx & _ & _ & _ & Hn & _).
    split; [exact Hi|]. split; [exact Hx | exact Hn].
  - vm_compute in E. discriminate E.
Defined.

(** ** Format and mode *)

Lemma dtype_of_format_supported (fmt : Z) (d : np_dtype) :
  dtype_of_format fmt = Some d -> supported_format fmt.
Proof.
  unfold supported_format. destruct fmt as [|p|p]; try discriminate.
  do 4 (try destruct p as [p|p|]); try discriminate; intros _; lia.
Qed.

(** X6.  After [__init__] the format code is one of 1, 2, 3, 5, 8, so
    [str(f.format)] is never "Unknown format" and never the description of
    code 4, which [__init__] replaces by code 1; and the two tables agree: the
    description starts with the item size of the dtype, as in "4-byte IBM
    float" for [float32] and "2-byte signed integer" for [int16]. *)
Theorem format_matches_dtype (filename mode : string) (il xl : Z)
    (fd : segyiofd) (py : Runtime) :
  let f := (SegyFile_init filename mode il xl fd py).1 in
  supported_format (format_int f)
  /\ dtype_of_format (format_int f) = Some (dtype f)
  /\ format_str f <> "Unknown format"
  /\ format_str f <> "4-byte fixed point with gain"
  /\ (exists rest,
        format_str f = (pretty (itemsize (dtype f)) +:+ "-byte ") +:+ rest)
  /\ (~ supported_format (fd_format fd) -> format_str f = "4-byte IBM float").
Proof.
  intros f. subst f. unfold SegyFile_init.
  change (m_format (metrics fd)) with (fd_format fd).
  destruct (dtype_of_format (fd_format fd)) as [d|] eqn:E; cbn.
  - pose proof (dtype_of_format_supported _ _ E) as Hs.
    unfold format_int, format_str, dtype. cbn.
    split; [done|]. split; [done|].
    destruct Hs as [H|[H|[H|[H|H]]]]; rewrite H in *; cbn in E; simplify_eq;
      repeat split; try discriminate;
      try (eexists; reflexivity);
      try (intros Hn; exfalso; apply Hn; unfold supported_format; lia).
  - unfold format_int, format_str, dtype, supported_format. cbn.
    repeat split; try discriminate; try (eexists; reflexivity); lia.
Qed.

Lemma contains_char_spec (c : ascii) (s : string) :
  contains_char c s = true
  <-> exists s1 s2, s = s1 +:+ String.String c s2.
Proof.
  induction s as [|c' s IH]; cbn.
  - split; [discriminate|].
    intros ([|? ?] & s2 & H); cbv [String.append] in H; discriminate.
  - destruct (Ascii.eqb c c') eqn:E.
    + apply Ascii.eqb_eq in E as ->. split; [|done].
      intros _. by exists "", s.
    + apply Ascii.eqb_neq in E. rewrite IH. split.
      * intros (s1 & s2 & ->). by exists (String.String c' s1), s2.
      * intros ([|c1 s1] & s2 & H); cbv [String.append] in H;
          fold String.append in H; simplify_eq.
        by exists s1, s2.
Qed.

(** X7.  A file is read-only exactly when its mode string contains no ['+']:
    it is writable iff the mode has the form [s1 + "+" + s2].  The flag does
    not depend on the handle or on the geometry, and the [Trace] view that
    [__init__] constructs carries the same flag. *)
Theorem readonly_mode (filename mode : string) (il xl : Z) (fd : segyiofd)
    (r : option Geometry) (py : Runtime) :
  let f0 := (SegyFile_init filename mode il xl fd py).1 in
  let f := (open filename mode il xl fd r py).1 in
  (readonly f = false <-> exists s1 s2, mode = s1 +:+ "+" +:+ s2)
  /\ readonly f = readonly f0
  /\ trace_readonly (trace f) = readonly f
  /\ (forall g : SegyFile, same_data f g -> readonly g = readonly f).
Proof.
  intros f0 f. subst f0 f. unfold open, SegyFile_init.
  assert (Hm : negb (contains_char "+" mode) = false
               <-> exists s1 s2, mode = s1 +:+ "+" +:+ s2).
  { rewrite negb_false_iff. apply contains_char_spec. }
  destruct (dtype_of_format (m_format (metrics fd))), r; cbn;
    (split; [exact Hm|]); (split; [done|]); (split; [done|]);
    intros f1 Hg; unfold readonly; destruct Hg as (_ & -> & _); done.
Qed.

Example readonly_modes :
  readonly (SegyFile_init "f" "r" 189 193 survey_fd py0).1 = true
  /\ readonly (SegyFile_init "f" "r+" 189 193 survey_fd py0).1 = false
  /\ readonly (SegyFile_init "f" "w+" 189 193 survey_fd py0).1 = false
  /\ readonly (SegyFile_init "f" "rb" 189 193 survey_fd py0).1 = true.
Proof. repeat split. Qed.

(** ** More on [attributes] *)

Lemma attr_slice_value (self : SegyFile) (field : Z) (a b c : option Z)
    (start stop step : Z) (vs : list Z) :
  slice_indices a b c (tracecount self) = Ok (start, stop, step) ->
  Forall2 (fun i v => read_field (xfd self) i field = Ok v)
          (py_range start stop step) vs ->
  attributes self field (Slice a b c) = Ok vs.
Proof.
  intros Hs Hall. unfold attributes, attr_getitem, attr_getitem_range.
  rewrite Hs. cbn [rbind]. unfold field_forall.
  rewrite <- length_py_range. by apply field_fill_exact.
Qed.

Lemma py_range_forward (n : Z) : 0 <= n -> py_range 0 n 1 = seqZ 0 n.
Proof.
  intros Hn. unfold py_range, range_len. cbn [Z.ltb Z.compare].
  destruct (0 <? n) eqn:E; [apply Z.ltb_lt in E | apply Z.ltb_ge in E].
  - rewrite Z.sub_0_r, Z.div_1_r. replace (n - 1 + 1) with n by lia.
    rewrite <- (list_fmap_id (seqZ 0 n)) at 2.
    apply list_fmap_ext. intros i k _. cbn. lia.
  - by replace n with 0 by lia.
Qed.

Lemma py_range_backward (n : Z) :
  0 <= n -> py_range (n - 1) (-1) (-1) = (fun k => n - 1 - k) <$> seqZ 0 n.
Proof.
  intros Hn. unfold py_range, range_len. cbn [Z.ltb Z.compare Z.opp].
  destruct (-1 <? n - 1) eqn:E; [apply Z.ltb_lt in E | apply Z.ltb_ge in E].
  - replace (n - 1 - -1 - 1) with (n - 1) by lia. rewrite Z.div_1_r.
    replace (n - 1 + 1) with n by lia.
    apply list_fmap_ext. intros i k _. cbn. lia.
  - by replace n with 0 by lia.
Qed.

Lemma read_all_records (fd : segyiofd) (field : Z) :
  Forall2 (fun i v => read_field fd i field = Ok v)
          (seqZ 0 (Z.of_nat (length (fd_records fd))))
          ((fun r : (Z -> Z) * list Z => r.1 field) <$> fd_records fd).
Proof.
  apply Forall2_same_length_lookup_2.
  - rewrite length_seqZ, length_fmap. lia.
  - intros i x y Hx Hy. apply lookup_seqZ in Hx as [-> Hi].
    rewrite list_lookup_fmap in Hy.
    destruct (fd_records fd !! i) as [r|] eqn:Hr; [|done]. cbn in Hy.
    simplify_eq. unfold read_field.
    rewrite (proj2 (Z.ltb_ge _ _)) by lia.
    replace (Z.to_nat (0 + Z.of_nat i)) with i by lia. by rewrite Hr.
Qed.

Lemma read_all_records_reversed (fd : segyiofd) (field : Z) :
  let n := Z.of_nat (length (fd_records fd)) in
  Forall2 (fun i v => read_field fd i field = Ok v)
          ((fun k => n - 1 - k) <$> seqZ 0 n)
          (reverse ((fun r : (Z -> Z) * list Z => r.1 field) <$> fd_records fd)).
Proof.
  intros n. apply Forall2_same_length_lookup_2.
  - rewrite length_fmap, length_seqZ, length_reverse, length_fmap. lia.
  - intros i x y Hx Hy. rewrite list_lookup_fmap in Hx.
    destruct (seqZ 0 n !! i) as [k|] eqn:Hk; [|done].
    apply lookup_seqZ in Hk as [-> Hi]. cbn in Hx. simplify_eq.
    rewrite reverse_lookup in Hy by (rewrite length_fmap; lia).
    rewrite length_fmap, list_lookup_fmap in Hy.
    destruct (fd_records fd !! (length (fd_records fd) - S i)%nat)
      as [r|] eqn:Hr; [|done].
    cbn in Hy. simplify_eq. unfold read_field.
    rewrite (proj2 (Z.ltb_ge _ _)) by lia.
    replace (Z.to_nat (n - 1 - (0 + Z.of_nat i)))
      with (length (fd_records fd) - S i)%nat by lia.
    by rewrite Hr.
Qed.

(** X8.  [attributes(field)[:]] returns the field of every trace of the file,
    one value per trace, in trace order; [attributes(field)[::-1]] returns
    the same values in reverse order. *)
Theorem attributes_all_traces (self : SegyFile) (field : Z) :
  consistent self ->
  let all := (fun r : (Z -> Z) * list Z => r.1 field)
               <$> fd_records (xfd self) in
  attributes self field (Slice None None None) = Ok all
  /\ attributes self field (Slice None None (Some (-1))) = Ok (reverse all)
  /\ Z.of_nat (length all) = tracecount self.
Proof.
  intros [Ht _] all. subst all.
  assert (Hn : 0 <= tracecount self) by (rewrite Ht; cbn; lia).
  split; [|split].
  - apply (attr_slice_value self field None None None 0 (tracecount self) 1);
      [reflexivity|].
    rewrite py_range_forward by done. rewrite Ht. apply read_all_records.
  - apply (attr_slice_value self field None None (Some (-1))
             (tracecount self - 1) (-1) (-1)); [reflexivity|].
    rewrite py_range_backward by done. rewrite Ht.
    apply read_all_records_reversed.
  - rewrite length_fmap, Ht. reflexivity.
Qed.

Lemma attributes_all_traces_witness :
  attributes survey 193 (Slice None None None) = Ok [10; 20; 30; 10; 20; 30]
  /\ attributes survey 189 (Slice None None (Some (-1)))
     = Ok [2; 2; 2; 1; 1; 1].
Proof.
  split.
  - apply (attributes_all_traces survey 193 survey_consistent).
  - apply (attributes_all_traces survey 189 survey_consistent).
Defined.

Lemma slice_range_len_le (a b c : option Z) (len start stop step : Z) :
  0 <= len ->
  slice_indices a b c len = Ok (start, stop, step) ->
  0 <= range_len start stop step <= len.
Proof.
  intros Hlen H.
  split; [apply range_len_nonneg;
          by eapply slice_indices_in_range|].
  unfold slice_indices in H.
  destruct (default 1 c =? 0) eqn:E0; [discriminate|].
  apply Z.eqb_neq in E0. injection H as Hstart Hstop Hstep.
  rewrite Hstep in *. unfold range_len.
  destruct (0 <? step) eqn:E.
  - apply Z.ltb_lt in E. rewrite (proj2 (Z.ltb_ge step 0)) in * by lia.
    assert (0 <= start <= len) as Hs.
    { subst start. destruct a as [s|]; [|lia].
      destruct (s <? 0) eqn:Es; [apply Z.ltb_lt in Es|apply Z.ltb_ge in Es]; lia. }
    assert (0 <= stop <= len) as Ht.
    { subst stop. destruct b as [s|]; [|lia].
      destruct (s <? 0) eqn:Es; [apply Z.ltb_lt in Es|apply Z.ltb_ge in Es]; lia. }
    destruct (start <? stop) eqn:E2; [apply Z.ltb_lt in E2|lia].
    pose proof (Z.mul_div_le (stop - start - 1) step E).
    pose proof (Z.div_pos (stop - start - 1) step). nia.
  - apply Z.ltb_ge in E. assert (step < 0) as Hneg by lia.
    rewrite (proj2 (Z.ltb_lt step 0)) in * by lia.
    assert (-1 <= start <= len - 1) as Hs.
    { subst start. destruct a as [s|]; [|lia].
      destruct (s <? 0) eqn:Es; [apply Z.ltb_lt in Es|apply Z.ltb_ge in Es]; lia. }
    assert (-1 <= stop <= len - 1) as Ht.
    { subst stop. destruct b as [s|]; [|lia].
      destruct (s <? 0) eqn:Es; [apply Z.ltb_lt in Es|apply Z.ltb_ge in Es]; lia. }
    destruct (stop <? start) eqn:E2; [apply Z.ltb_lt in E2|lia].
    pose proof (Z.mul_div_le (start - stop - 1) (- step) ltac:(lia)).
    pose proof (Z.div_pos (start - stop - 1) (- step)). nia.
Qed.

(** X9.  A slice subscript of [attributes] fails in one case only: a step of
    zero raises [ValueError], before the file is read.  With any other step,
    and whatever the bounds, also far outside the file, on an opened file the
    subscript returns an array, of at most [tracecount] values: slice bounds
    are clamped and never raise. *)
Theorem attributes_slice_total (self : SegyFile) (field : Z) :
  (forall a b : option Z,
      attributes self field (Slice a b (Some 0))
      = Raise (ValueError "slice step cannot be zero"))
  /\ (consistent self ->
      forall a b c : option Z, c <> Some 0 ->
      exists vs, attributes self field (Slice a b c) = Ok vs
                 /\ 0 <= Z.of_nat (length vs) <= tracecount self).
Proof.
  split; [reflexivity|].
  intros Hc a b c Hstep.
  assert (Hn : 0 <= tracecount self).
  { destruct Hc as [Ht _]. rewrite Ht. cbn. lia. }
  destruct (slice_indices_ok a b c (tracecount self) Hstep)
    as [[[start stop] step] Hs].
  destruct (attr_getitem_slice self field a b c start stop step Hc Hs)
    as (vs & Hvs & Hall).
  exists vs. split; [exact Hvs|].
  apply Forall2_length in Hall. rewrite <- Hall, length_py_range.
  pose proof (slice_range_len_le a b c _ _ _ _ Hn Hs). lia.
Qed.

Lemma attributes_slice_total_witness :
  exists vs,
    attributes survey 193 (Slice (Some (-100)) (Some 100) (Some 4)) = Ok vs
    /\ 0 <= Z.of_nat (length vs) <= 6.
Proof.
  destruct (attributes_slice_total survey 193) as [_ H].
  apply (H survey_consistent). discriminate.
Defined.



(** ** More on [TextHeader] *)

(** X11.  A text-header read or assignment that returns was within the slot
    range, and it is one call of the handle: [text[index]] that returns [s]
    has [0 <= index <= ext_headers] and [s] is what [gettext(index)] returns;
    [text[index] = val] that returns has [0 <= index <= ext_headers] and
    leaves the file as it was except for the handle, which is the result of
    one [puttext(index, s)], where [s] is [val] itself or slot 0 of the
    [TextHeader] [val]. *)
Theorem text_access_sound (self : TextHeader) (index : Z) :
  (forall s, TextHeader_getitem self index = Ok s ->
      0 <= index <= ext_headers (outer self)
      /\ gettext (xfd (outer self)) index = Ok s)
  /\ (forall val f', TextHeader_setitem self index val = Ok f' ->
      0 <= index <= ext_headers (outer self)
      /\ exists s fd',
           match val with
           | VStr t => t = s
           | VTextHeader g => TextHeader_getitem g 0 = Ok s
           end
           /\ puttext (xfd (outer self)) index s = Ok fd'
           /\ f' = set_xfd (outer self) fd'
           /\ same_data (set_xfd f' (xfd (outer self))) (outer self)).
Proof.
  assert (Hrange : negb ((0 <=? index) && (index <=? ext_headers (outer self)))
                   = false -> 0 <= index <= ext_headers (outer self)).
  { intros H. apply negb_false_iff, andb_true_iff in H as [H1 H2].
    apply Z.leb_le in H1, H2. lia. }
  assert (Hstr : forall s f', TextHeader_setitem_str self index s = Ok f' ->
             0 <= index <= ext_headers (outer self)
             /\ exists fd', puttext (xfd (outer self)) index s = Ok fd'
                            /\ f' = set_xfd (outer self) fd'
                            /\ same_data (set_xfd f' (xfd (outer self)))
                                         (outer self)).
  { intros s f' H. unfold TextHeader_setitem_str in H.
    destruct (negb _) eqn:E; [done|]. split; [by apply Hrange|].
    destruct (puttext (xfd (outer self)) index s) as [fd'|] eqn:Hp; [|done].
    cbn in H. simplify_eq. exists fd'. split; [done|]. split; [done|].
    destruct (outer self). unfold same_data. cbn. repeat split. }
  split.
  - intros s H. unfold TextHeader_getitem in H.
    destruct (negb _) eqn:E; [done|]. split; [by apply Hrange | done].
  - intros [t|g] f' H; cbn in H.
    + destruct (Hstr _ _ H) as (Hi & fd' & Hp & Hf & Hd).
      split; [done|]. by exists t, fd'.
    + destruct (TextHeader_getitem g 0) as [s|] eqn:Hg; [|done]. cbn in H.
      destruct (Hstr _ _ H) as (Hi & fd' & Hp & Hf & Hd).
      split; [done|]. by exists s, fd'.
Qed.

Lemma text_access_sound_witness :
  exists f',
    TextHeader_setitem (mk_TextHeader 7%nat survey) 1 (VStr "C 2") = Ok f'
    /\ 0 <= 1 <= ext_headers survey
    /\ same_data (set_xfd f' (xfd survey)) survey.
Proof.
  destruct (TextHeader_setitem (mk_TextHeader 7%nat survey) 1 (VStr "C 2"))
    as [f'|e] eqn:E.
  - exists f'. split; [reflexivity|].
    destruct (text_access_sound (mk_TextHeader 7%nat survey) 1) as [_ H].
    destruct (H _ _ E) as (Hi & s & fd' & _ & _ & _ & Hd).
    split; [exact Hi | exact Hd].
  - vm_compute in E. discriminate E.
Defined.

(** X12.  [text[index] = g] for a [TextHeader] [g] reads [g[0]] before it
    looks at [index]: when the read of slot 0 of the source fails, the
    assignment fails with that error and writes nothing, for every [index],
    inside the range or not.  In particular a source whose file has no text
    slot ([ext_headers < 0]) gives the [IndexError] for header 0, not for
    [index]. *)
Theorem text_copy_reads_source_first (self g : TextHeader) (index : Z) :
  (forall e, TextHeader_getitem g 0 = Raise e ->
      TextHeader_setitem self index (VTextHeader g) = Raise e)
  /\ (ext_headers (outer g) < 0 ->
      TextHeader_setitem self index (VTextHeader g)
      = Raise (IndexError "Textual header 0 not in file")).
Proof.
  split.
  - intros e H. cbn. by rewrite H.
  - intros Hneg. cbn. unfold TextHeader_getitem.
    rewrite (proj2 (Z.leb_gt 0 (ext_headers (outer g)))) by lia. done.
Qed.

Lemma text_copy_reads_source_first_witness :
  let empty := (SegyFile_init "e.sgy" "r" 189 193 (mk_segyiofd 1 2 [] []) py0).1 in
  ext_headers empty < 0
  /\ TextHeader_setitem (mk_TextHeader 7%nat survey) 5
       (VTextHeader (mk_TextHeader 8%nat empty))
     = Raise (IndexError "Textual header 0 not in file").
Proof.
  intros empty.
  assert (Hneg : ext_headers empty < 0) by (cbn; lia).
  split; [exact Hneg|].
  apply (text_copy_reads_source_first (mk_TextHeader 7%nat survey)
           (mk_TextHeader 8%nat empty) 5). exact Hneg.
Defined.

(** X13.  [str(f.text)] never returns: [TextHeader.__str__] passes the
    warning class as the message and the text as the category to
    [warnings.warn], which refuses a category that is not a class with a
    [TypeError]; no warning is recorded and the text header is not read. *)
Theorem text_str_raises (str_text : string -> string) (self : TextHeader)
    (py : Runtime) :
  TextHeader_str str_text self py
  = Throw (TypeError "category must be a Warning subclass, not 'str'")
  /\ ~ returns (TextHeader_str str_text self py)
  /\ (forall (message : warn_arg) (t : string) (py' : Runtime),
        ~ returns (warnings_warn message (WText t) py'))
  /\ (forall (message : string) (c : string) (py' : Runtime),
        warnings_warn (WText message) (WClass c) py'
        = Return (warn message py')).
Proof. repeat split; intros; cbn; tauto. Qed.

(** ** [SegyFile.__str__] *)


Lemma line_summary_empty (name : string) :
  line_summary name (Some [])
  = Throw (Builtin (IndexError "index 0 is out of bounds")).
Proof. reflexivity. Qed.



Example repr_examples :
  SegyFile_repr survey = "SegyFile('survey.sgy', 'r+', iline = 189, xline = 193)"
  /\ TextHeader_repr (mk_TextHeader 7%nat survey) = "Text(external_headers = 1)"
  /\ full_groups 3 "abcdefgh" = ["abc"; "def"]
  /\ SegyFile_str (fun _ => "[0. 4.]") survey
     = Return (join newline
         [ "SegyFile survey.sgy:"; "  inlines: 2 [1, 2]";
           "  crosslines: 3 [10, 30]"; "  traces: 6"; "  samples: None";
           "  float representation: 4-byte IBM float" ]).
Proof. repeat split. Qed.
